(** * Key-value store client over a managed table service (keystore.py)

    A shallow embedding of [DynamoDbDatabase] / [DynamoDbTable] / [Keystore].

    The client is a sequence of calls into a vendor SDK, so the embedding has
    two layers:

    - the code of keystore.py, translated function by function, as
      computations in a state-and-exception monad [M];
    - the collaborators the code calls (the table service behind boto3, the
      file system behind [open] and the csv module, the logger, the Python
      string and datetime library functions), modelled by the smallest state
      that explains what the client can observe.

    Modelling conventions, fixed once for the whole development:

    - Python [str] is [string] read as the bytes of its UTF-8 encoding.
      [lower] and [strptime_Ymd] are [str.lower] and [datetime.strptime] on
      ASCII strings ([is_ascii]); beyond ASCII Python consults the Unicode
      tables (case mappings, decimal digits of every script), which are not
      part of this development, so a statement that depends on what these
      two functions do with a string takes that string in ASCII.
    - The table service keeps, per table name, the items of the table keyed by
      (partition key, sort key) = ([key], [datetime]): a second write of the
      same pair replaces the first.  Every table of the account carries the
      key schema that [create_table] requests.  Calls take effect at once
      (no CREATING / DELETING phases).  A query answers with one page: the
      leading items of the result, as many as fit in 1 MB, and the client
      never asks for the next page.  A write is refused with
      ValidationException when a key attribute is empty or too long or the
      item exceeds 400 KB; naming a table that does not exist, or creating
      one that does, raises ResourceNotFoundException or
      ResourceInUseException.
    - Strings are ordered the way the service orders sort keys: byte by byte
      ([String.leb]).
    - A CSV file is the list of its rows, each row a list of fields: this is
      what [csv.reader] yields and what [csv.writer] is given; the reader
      raises [csv.Error] at a row with a field of more than 131072
      characters.  The file system maps a path to what [open] finds there: a file, or a place
      where [open] raises (a directory, a path under a directory that does
      not exist, a place the process may not touch).
    - The clock reading [datetime.now(timezone.utc).astimezone(US/Central)]
      is an input of [put_item_into_table]: an aware [datetime] value. *)

From Stdlib Require Import String Ascii List ZArith Lia Bool.
From stdpp Require Import gmap strings list sorting.

Local Open Scope string_scope.
Local Open Scope Z_scope.

(** ** Python string functions used by the client *)

Definition is_upper (c : ascii) : bool :=
  let n := nat_of_ascii c in (65 <=? n)%nat && (n <=? 90)%nat.

Definition lower_ascii (c : ascii) : ascii :=
  if is_upper c then ascii_of_nat (nat_of_ascii c + 32) else c.

(** [str.lower], on ASCII strings. *)
Fixpoint lower (s : string) : string :=
  match s with
  | EmptyString => EmptyString
  | String c s' => String (lower_ascii c) (lower s')
  end.

(** [s.endswith(suf)]: [suf] is [s] itself or ends the tail of [s]. *)
Fixpoint endswith (s suf : string) : bool :=
  if String.eqb s suf then true
  else match s with
       | EmptyString => false
       | String _ s' => endswith s' suf
       end.

(** [sub in s]: [sub] starts [s] or occurs in the tail of [s]. *)
Fixpoint contains (s sub : string) : bool :=
  if String.prefix sub s then true
  else match s with
       | EmptyString => false
       | String _ s' => contains s' sub
       end.

(** Some byte of [s] is an ASCII capital letter. *)
Fixpoint has_upper (s : string) : bool :=
  match s with
  | EmptyString => false
  | String c s' => is_upper c || has_upper s'
  end.

(** [s.isascii()]: every byte of [s] is below 128. *)
Fixpoint is_ascii (s : string) : bool :=
  match s with
  | EmptyString => true
  | String c s' => (nat_of_ascii c <? 128)%nat && is_ascii s'
  end.

(** ** Module constants *)

Definition _DEF_PROVISIONED_THROUGHPUT : Z := 10.
Definition _ENDPOINT_URL : string := "http://localhost:8000".
Definition _DEV_ETL_NODE : string := "dfhdpetl02".
Definition _PROD_ETL_NODE : string := "dfhdpetl03".

(** ** class DynamoDbDatabase *)

Record DynamoDbDatabase := mkDynamoDbDatabase {
  profile_name : string;
  suffix : string;
  _endpoint_url : string
}.

(** [__init__]; [_ENV_HOST_NAME], resolved once when the module is loaded,
    is the first argument. *)
Definition __init__ (_ENV_HOST_NAME : string) (endpoint_url : option string)
  : DynamoDbDatabase :=
  {| profile_name := "default";
     suffix :=
       if contains _ENV_HOST_NAME _DEV_ETL_NODE then "_dev"
       else if contains _ENV_HOST_NAME _PROD_ETL_NODE then "_prod"
       else "_dev";
     _endpoint_url :=
       match endpoint_url with
       | Some u => u
       | None => _ENDPOINT_URL
       end |}.

Definition get_endpoint_url (self : DynamoDbDatabase) : string :=
  _endpoint_url self.

(** [get_aws_session], [get_database_resource] and [get_database_client] open
    a session on the profile and hand out the service objects; they hold no
    state of their own, and the calls made through them are the operations of
    the table service below. *)

(** ** class DynamoDbTable: name resolution *)

Definition get_complete_name (self : DynamoDbDatabase) (table_name : string)
  : string :=
  if endswith table_name (suffix self) then table_name
  else table_name +:+ suffix self.

(** ** The datetime library: [strptime] with format [%Y%m%d], [isoformat] *)

(** A [datetime] value; [utcoffset] (minutes east of UTC) is [None] for a
    naive value. *)
Record datetime := mkdatetime {
  year : Z;
  month : Z;
  day : Z;
  hour : Z;
  minute : Z;
  second : Z;
  microsecond : Z;
  utcoffset : option Z
}.

Definition is_digit (c : ascii) : bool :=
  let n := nat_of_ascii c in (48 <=? n)%nat && (n <=? 57)%nat.

Definition digit_val (c : ascii) : Z := Z.of_nat (nat_of_ascii c) - 48.

Definition digit_char (d : Z) : ascii := ascii_of_nat (Z.to_nat (48 + d mod 10)).

(** [n] decimal digits of [z], most significant first: [%0nd] for
    [0 <= z < 10^n]. *)
Fixpoint zfill (n : nat) (z : Z) : string :=
  match n with
  | O => EmptyString
  | S n' => zfill n' (z / 10) +:+ String (digit_char z) EmptyString
  end.

(** Directive [%Y] is the pattern [\d\d\d\d]. *)
Definition match_Y (s : string) : option (Z * string) :=
  match s with
  | String a (String b (String c (String d rest))) =>
      if is_digit a && is_digit b && is_digit c && is_digit d
      then Some (1000 * digit_val a + 100 * digit_val b
                 + 10 * digit_val c + digit_val d, rest)
      else None
  | _ => None
  end.

(** Directive [%m] is the pattern [1[0-2]|0[1-9]|[1-9]]: every alternative
    that matches at the head of [s], in the order the matcher tries them. *)
Definition match_m (s : string) : list (Z * string) :=
  match s with
  | String a r1 =>
      let two :=
        match r1 with
        | String b r2 =>
            if Ascii.eqb a "1" && is_digit b && (digit_val b <=? 2)
            then [(10 + digit_val b, r2)]
            else if Ascii.eqb a "0" && is_digit b && (1 <=? digit_val b)
            then [(digit_val b, r2)]
            else []
        | EmptyString => []
        end in
      two ++ (if is_digit a && (1 <=? digit_val a) then [(digit_val a, r1)] else [])
  | EmptyString => []
  end.

(** Directive [%d] is the pattern [3[0-1]|[1-2]\d|0[1-9]|[1-9]| [1-9]]; it
    ends the format, so the first alternative that matches is the one kept. *)
Definition match_d (s : string) : option (Z * string) :=
  match s with
  | String a r1 =>
      let one :=
        if is_digit a && (1 <=? digit_val a) then Some (digit_val a, r1) else None in
      match r1 with
      | String b r2 =>
          if Ascii.eqb a "3" && is_digit b && (digit_val b <=? 1)
          then Some (30 + digit_val b, r2)
          else if is_digit a && (1 <=? digit_val a) && (digit_val a <=? 2) && is_digit b
          then Some (10 * digit_val a + digit_val b, r2)
          else if Ascii.eqb a "0" && is_digit b && (1 <=? digit_val b)
          then Some (digit_val b, r2)
          else match one with
               | Some r => Some r
               | None =>
                   if Ascii.eqb a " " && is_digit b && (1 <=? digit_val b)
                   then Some (digit_val b, r2)
                   else None
               end
      | EmptyString => one
      end
  | EmptyString => None
  end.

(** The first month alternative after which the day pattern matches. *)
Fixpoint first_md (alts : list (Z * string)) : option (Z * Z * string) :=
  match alts with
  | [] => None
  | (m, r) :: alts' =>
      match match_d r with
      | Some (d, rest) => Some (m, d, rest)
      | None => first_md alts'
      end
  end.

Definition is_leap (y : Z) : bool :=
  (y mod 4 =? 0) && (negb (y mod 100 =? 0) || (y mod 400 =? 0)).

Definition days_in_month (y m : Z) : Z :=
  if m =? 2 then (if is_leap y then 29 else 28)
  else if (m =? 4) || (m =? 6) || (m =? 9) || (m =? 11) then 30
  else 31.

(** [datetime.strptime(s, '%Y%m%d')], on ASCII strings: [None] stands for
    the ValueError raised when the pattern does not match, when unconverted
    data remains, or when the fields are not a calendar date. *)
Definition strptime_Ymd (s : string) : option datetime :=
  match match_Y s with
  | Some (y, r) =>
      match first_md (match_m r) with
      | Some (m, d, rest) =>
          if String.eqb rest EmptyString && (1 <=? y) && (d <=? days_in_month y m)
          then Some (mkdatetime y m d 0 0 0 0 None)
          else None
      | None => None
      end
  | None => None
  end.

Definition format_offset (off : Z) : string :=
  (if off <? 0 then "-" else "+") +:+ zfill 2 (Z.abs off / 60) +:+ ":"
  +:+ zfill 2 (Z.abs off mod 60).

(** [d.isoformat()]. *)
Definition isoformat (d : datetime) : string :=
  zfill 4 (year d) +:+ "-" +:+ zfill 2 (month d) +:+ "-" +:+ zfill 2 (day d)
  +:+ "T" +:+ zfill 2 (hour d) +:+ ":" +:+ zfill 2 (minute d) +:+ ":"
  +:+ zfill 2 (second d)
  +:+ (if microsecond d =? 0 then "" else "." +:+ zfill 6 (microsecond d))
  +:+ match utcoffset d with
      | Some off => format_offset off
      | None => ""
      end.

(** ** The world the client acts on *)

(** An item as the service returns it: [{key, datetime, info: {value}}]. *)
Record Item := mkItem {
  item_key : string;
  item_datetime : string;
  item_value : string
}.

(** A table of the service: what [create_table] was asked for, and the items,
    keyed by (partition key, sort key). *)
Record Table := mkTable {
  KeySchema : list (string * string);
  AttributeDefinitions : list (string * string);
  ProvisionedThroughput : Z * Z;
  table_items : gmap (string * string) string
}.

Definition with_items (t : Table) (m : gmap (string * string) string) : Table :=
  mkTable (KeySchema t) (AttributeDefinitions t) (ProvisionedThroughput t) m.

(** What [open] finds at a path: a file of rows, which the process may or
    may not overwrite, or a place where [open] raises in either mode. *)
Inductive node :=
| CsvFile (rows : list (list string)) (writable : bool)
| Directory
| NoParent
| Denied.

Record World := mkWorld {
  tables : gmap string Table;
  files : gmap string node;
  log : list string;
  stdout : list string
}.

Definition set_tables (w : World) (t : gmap string Table) : World :=
  mkWorld t (files w) (log w) (stdout w).

Definition set_files (w : World) (f : gmap string node) : World :=
  mkWorld (tables w) f (log w) (stdout w).

Inductive exn :=
| ResourceNotFoundException
| ResourceInUseException
| ValidationException
| IndexError
| ValueError
| FileNotFoundError
| IsADirectoryError
| PermissionError
| CsvError.

Inductive result (A : Type) :=
| Ok (a : A)
| Raise (e : exn).

Arguments Ok {A} a.
Arguments Raise {A} e.

(** A computation: runs on a world, returns a value or raises, and leaves a
    world behind in both cases (nothing is rolled back by an exception). *)
Definition M (A : Type) : Type := World -> result A * World.

Definition ret {A} (a : A) : M A := fun w => (Ok a, w).

Definition raise {A} (e : exn) : M A := fun w => (Raise e, w).

Definition bind {A B} (m : M A) (k : A -> M B) : M B :=
  fun w =>
    match m w with
    | (Ok a, w') => k a w'
    | (Raise e, w') => (Raise e, w')
    end.

Notation "x <- m ;; k" := (bind m (fun x => k))
  (at level 100, m at next level, right associativity).
Notation "m ;;; k" := (bind m (fun _ => k))
  (at level 100, right associativity).

(** [log.info(msg)]. *)
Definition log_info (msg : string) : M unit :=
  fun w => (Ok tt, mkWorld (tables w) (files w) (log w ++ [msg]) (stdout w)).

(** [print(s)]. *)
Definition print (s : string) : M unit :=
  fun w => (Ok tt, mkWorld (tables w) (files w) (log w) (stdout w ++ [s])).

(** [row[i]]. *)
Definition index (row : list string) (i : nat) : M string :=
  match row !! i with
  | Some x => ret x
  | None => raise IndexError
  end.

(** ** The table service, as reached through the SDK *)

(** [db.Table(name)]: a handle made from the name alone. *)
Record TableResource := mkTableResource { name : string }.

(** Truth value of a handle in [if table:]. The SDK's resource objects define
    neither [__bool__] nor [__len__], so every handle is true. *)
Definition truthy (t : TableResource) : bool := true.

(** [[table.name for table in db.tables.all()]]. *)
Definition tables_all : M (list string) :=
  fun w => (Ok (elements (dom (tables w))), w).

(** [dynamodb.create_table(TableName=..., KeySchema=..., ...)]. *)
Definition db_create_table (TableName : string)
  (key_schema attribute_definitions : list (string * string))
  (provisioned_throughput : Z * Z) : M TableResource :=
  fun w =>
    match tables w !! TableName with
    | Some _ => (Raise ResourceInUseException, w)
    | None =>
        (Ok (mkTableResource TableName),
         set_tables w
           (<[TableName :=
                mkTable key_schema attribute_definitions provisioned_throughput ∅]>
              (tables w)))
    end.

(** [client.delete_table(TableName=...)]. *)
Definition client_delete_table (TableName : string) : M unit :=
  fun w =>
    match tables w !! TableName with
    | Some _ => (Ok tt, set_tables w (delete TableName (tables w)))
    | None => (Raise ResourceNotFoundException, w)
    end.

(** The acknowledgment of a write. *)
Inductive PutItemOutput := put_item_output.

(** Length of a string in bytes. *)
Definition byte_length (s : string) : Z := Z.of_nat (String.length s).

(** Size of an item as the service counts it: the attribute names [key],
    [datetime], [info] and [value], the three values, and the overhead of
    the map [info] (3 bytes and 1 byte for its entry). *)
Definition item_size (it : Item) : Z :=
  24 + byte_length (item_key it) + byte_length (item_datetime it)
  + byte_length (item_value it).

(** The limits of the service on an item: a partition key of 1 to 2048
    bytes, a sort key of 1 to 1024 bytes, 400 KB in all. *)
Definition valid_item (it : Item) : bool :=
  (1 <=? byte_length (item_key it)) && (byte_length (item_key it) <=? 2048)
  && (1 <=? byte_length (item_datetime it))
  && (byte_length (item_datetime it) <=? 1024)
  && (item_size it <=? 409600).

(** [table.put_item(Item=...)]. *)
Definition table_put_item (table : TableResource) (it : Item) : M PutItemOutput :=
  fun w =>
    match tables w !! name table with
    | Some t =>
        if valid_item it then
          (Ok put_item_output,
           set_tables w
             (<[name table :=
                  with_items t
                    (<[(item_key it, item_datetime it) := item_value it]> (table_items t))]>
                (tables w)))
        else (Raise ValidationException, w)
    | None => (Raise ResourceNotFoundException, w)
    end.

(** Key conditions: [Key(a).eq(v)], [Key(a).gte(v)], [c1 & c2]. *)
Inductive Condition :=
| KeyEq (attr value : string)
| KeyGte (attr value : string)
| CondAnd (c1 c2 : Condition).

Definition attribute (it : Item) (attr : string) : option string :=
  if String.eqb attr "key" then Some (item_key it)
  else if String.eqb attr "datetime" then Some (item_datetime it)
  else None.

Fixpoint holds (c : Condition) (it : Item) : bool :=
  match c with
  | KeyEq a v =>
      match attribute it a with
      | Some x => String.eqb x v
      | None => false
      end
  | KeyGte a v =>
      match attribute it a with
      | Some x => String.leb v x
      | None => false
      end
  | CondAnd c1 c2 => holds c1 it && holds c2 it
  end.

(** The items of a table, in no particular order. *)
Definition items_of (t : Table) : list Item :=
  (fun p => mkItem (fst (fst p)) (snd (fst p)) (snd p)) <$> map_to_list (table_items t).

(** Sort-key order of the service, ascending or descending. *)
Definition sort_key_order (ScanIndexForward : bool) (a b : Item) : Prop :=
  if ScanIndexForward
  then String.leb (item_datetime a) (item_datetime b) = true
  else String.leb (item_datetime b) (item_datetime a) = true.

#[global] Instance sort_key_order_dec fwd a b : Decision (sort_key_order fwd a b).
Proof. unfold sort_key_order. destruct fwd; apply _. Defined.

Record QueryOutput := mkQueryOutput {
  Items : list Item;
  Count : nat
}.

(** The items a query selects, in the order of the result, cut at [Limit]. *)
Definition select (t : Table) (cond : Condition) (Limit : option nat)
  (ScanIndexForward : bool) : list Item :=
  let matched := List.filter (holds cond) (items_of t) in
  let sorted := merge_sort (sort_key_order ScanIndexForward) matched in
  match Limit with
  | Some n => take n sorted
  | None => sorted
  end.

(** A page of the service holds 1 MB. *)
Definition page_bytes : Z := 1048576.

(** The leading items of [l] whose sizes add up to [budget] at most. *)
Fixpoint page_of (budget : Z) (l : list Item) : list Item :=
  match l with
  | [] => []
  | it :: rest =>
      if item_size it <=? budget
      then it :: page_of (budget - item_size it) rest
      else []
  end.

(** The first page of a result: its first item, and the items after it
    as long as the page has room. *)
Definition first_page (l : list Item) : list Item :=
  match l with
  | [] => []
  | it :: rest => it :: page_of (page_bytes - item_size it) rest
  end.

(** The whole of [l] fits in one page. *)
Definition fits_one_page (l : list Item) : bool :=
  foldr (fun it acc => item_size it + acc) 0 l <=? page_bytes.

(** [table.query(KeyConditionExpression=..., Limit=..., ScanIndexForward=...)]:
    the answer carries the first page of the result; the key after which
    the next page starts is in it too, and the client does not read it. *)
Definition table_query (table : TableResource) (cond : Condition)
  (Limit : option nat) (ScanIndexForward : bool) : M QueryOutput :=
  fun w =>
    match tables w !! name table with
    | Some t =>
        let its := first_page (select t cond Limit ScanIndexForward) in
        (Ok (mkQueryOutput its (length its)), w)
    | None => (Raise ResourceNotFoundException, w)
    end.

(** [len(s)]: the number of characters of [s], the bytes of its encoding
    that do not continue a character. *)
Fixpoint char_length (s : string) : nat :=
  match s with
  | EmptyString => O
  | String c s' =>
      let n := nat_of_ascii c in
      ((if (128 <=? n)%nat && (n <? 192)%nat then 0 else 1) + char_length s')%nat
  end.

(** [csv.field_size_limit()]. *)
Definition field_size_limit : Z := 131072.

(** [csv.reader] yields the row: no field is above the limit. *)
Definition readable_row (row : list string) : bool :=
  forallb (fun field => Z.of_nat (char_length field) <=? field_size_limit) row.

(** [open(path, mode='r')] followed by [csv.reader]: the rows of the file;
    the reader hands them out one by one in the loop that follows. *)
Definition csv_read (path : string) : M (list (list string)) :=
  fun w =>
    if String.eqb path "" then (Raise FileNotFoundError, w)
    else
      match files w !! path with
      | Some (CsvFile rows _) => (Ok rows, w)
      | Some Directory => (Raise IsADirectoryError, w)
      | Some NoParent => (Raise FileNotFoundError, w)
      | Some Denied => (Raise PermissionError, w)
      | None => (Raise FileNotFoundError, w)
      end.

(** [open(path, 'w')] followed by [writer.writerow(header)] and
    [writer.writerows(data)]: the file is made or replaced. *)
Definition csv_write (path : string) (header : list string)
  (data : list (list string)) : M unit :=
  fun w =>
    let written := set_files w (<[path := CsvFile (header :: data) true]> (files w)) in
    if String.eqb path "" then (Raise FileNotFoundError, w)
    else
      match files w !! path with
      | Some (CsvFile _ true) => (Ok tt, written)
      | Some (CsvFile _ false) => (Raise PermissionError, w)
      | Some Directory => (Raise IsADirectoryError, w)
      | Some NoParent => (Raise FileNotFoundError, w)
      | Some Denied => (Raise PermissionError, w)
      | None => (Ok tt, written)
      end.

(** [open(path, 'w')] succeeds at [path]. *)
Definition writable_path (w : World) (path : string) : bool :=
  negb (String.eqb path "")
  && match files w !! path with
     | Some (CsvFile _ true) => true
     | Some _ => false
     | None => true
     end.

(** ** class DynamoDbTable: the operations *)

Definition get_table_resource (self : DynamoDbDatabase) (table_name : string)
  : M TableResource :=
  let complete_name := get_complete_name self table_name in
  ret (mkTableResource complete_name).

Definition if_table_exists (self : DynamoDbDatabase) (table_name : string)
  : M bool :=
  let complete_name := get_complete_name self table_name in
  existing_tables <- tables_all ;;
  ret (bool_decide (complete_name ∈ existing_tables)).

(** The loop of [list_all_existing_tables]. *)
Fixpoint print_tables (self : DynamoDbDatabase) (existing_tables : list string)
  : M unit :=
  match existing_tables with
  | [] => ret tt
  | table :: rest =>
      (if endswith table (suffix self) then print table else ret tt) ;;;
      print_tables self rest
  end.

Definition list_all_existing_tables (self : DynamoDbDatabase) : M unit :=
  existing_tables <- tables_all ;;
  log_info "KEYSTORE - All existing Tables:" ;;;
  print_tables self existing_tables.

Definition delete_table (self : DynamoDbDatabase) (table_name : string) : M unit :=
  let complete_name := get_complete_name self table_name in
  ex <- if_table_exists self table_name ;;
  if ex then
    client_delete_table complete_name ;;;
    log_info ("KEYSTORE - Table " +:+ complete_name +:+ " has been successfully deleted.")
  else
    log_info ("KEYSTORE - Table " +:+ complete_name +:+ " does not exist.").

Definition create_table (self : DynamoDbDatabase) (table_name : string)
  : M (option TableResource) :=
  let table_name_low := lower table_name in
  let complete_name := get_complete_name self table_name_low in
  let partition_key := "key" in
  let sort_key := "datetime" in
  let pk_key_type := "HASH" in
  let sk_key_type := "RANGE" in
  let pk_datatype := "S" in
  let sk_datatype := "S" in
  ex <- if_table_exists self table_name_low ;;
  if ex then
    log_info ("KEYSTORE - Table " +:+ complete_name +:+ " already exists.") ;;;
    ret None
  else
    table <- db_create_table complete_name
               [(partition_key, pk_key_type); (sort_key, sk_key_type)]
               [(partition_key, pk_datatype); (sort_key, sk_datatype)]
               (_DEF_PROVISIONED_THROUGHPUT, _DEF_PROVISIONED_THROUGHPUT) ;;
    log_info ("KEYSTORE - Table " +:+ complete_name +:+ " has been created.") ;;;
    ret (Some table).

(** [dt] is the clock reading
    [datetime.now(timezone.utc).astimezone(tz=pytz.timezone('US/Central'))]. *)
Definition put_item_into_table (self : DynamoDbDatabase)
  (table_name key value : string) (dt : datetime) : M (option PutItemOutput) :=
  let table_name_low := lower table_name in
  let complete_name := get_complete_name self table_name_low in
  let x := isoformat dt in
  let datetime_now := x in
  table <- get_table_resource self complete_name ;;
  if truthy table then
    response <- table_put_item table (mkItem key datetime_now value) ;;
    log_info "KEYSTORE - A new item has been added to the table." ;;;
    ret (Some response)
  else
    log_info "KEYSTORE - Provided table does not exist." ;;;
    ret None.

Definition get_latest_item_value (self : DynamoDbDatabase)
  (table_name key : string) : M (option string) :=
  let complete_name := get_complete_name self table_name in
  table <- get_table_resource self complete_name ;;
  if truthy table then
    response <- table_query table (KeyEq "key" key) (Some 1%nat) false ;;
    if (Count response =? 0)%nat then
      log_info "KEYSTORE - No values found with provided key" ;;;
      ret None
    else
      it <- match Items response !! 0%nat with
            | Some it => ret it
            | None => raise IndexError
            end ;;
      ret (Some (item_value it))
  else
    log_info "KEYSTORE - Provided table does not exist in the database." ;;;
    ret None.

Definition get_items_greater_than_date (self : DynamoDbDatabase)
  (table_name key yyyymmdd : string) : M (option (list Item)) :=
  let complete_name := get_complete_name self table_name in
  let str_yyyymmdd := yyyymmdd in
  d <- match strptime_Ymd str_yyyymmdd with
       | Some d => ret d
       | None => raise ValueError
       end ;;
  let from_yyyymmdd := isoformat d in
  table <- get_table_resource self complete_name ;;
  if truthy table then
    response <- table_query table
                  (CondAnd (KeyEq "key" key) (KeyGte "datetime" from_yyyymmdd))
                  None false ;;
    if (Count response =? 0)%nat then
      log_info "KEYSTORE - No values were found." ;;;
      ret None
    else
      ret (Some (Items response))
  else
    log_info "KEYSTORE - Provided table does not exist in the database." ;;;
    ret None.

(** The body of [for row in csv_reader] in [import_data_from_csv]. *)
Definition import_row (self : DynamoDbDatabase) (row : list string) : M unit :=
  r0 <- index row 0 ;;
  let table := r0 +:+ suffix self in
  ex <- if_table_exists self table ;;
  (if negb ex then _ <- create_table self table ;; ret tt else ret tt) ;;;
  key <- index row 1 ;;
  value <- index row 2 ;;
  r3 <- index row 3 ;;
  d <- match strptime_Ymd r3 with
       | Some d => ret d
       | None => raise ValueError
       end ;;
  let date_yyyymmdd := isoformat d in
  t <- get_table_resource self table ;;
  table_put_item t (mkItem key date_yyyymmdd value) ;;;
  log_info ("KEYSTORE - Item: " +:+ key +:+ " has been added into " +:+ table +:+ " table.").

(** [for row in csv_reader: ...; line_count += 1]; the reader raises
    [csv.Error] when it comes to a row with a field above its limit. *)
Fixpoint import_rows (self : DynamoDbDatabase) (rows : list (list string))
  (line_count : nat) : M nat :=
  match rows with
  | [] => ret line_count
  | row :: rest =>
      if readable_row row then
        import_row self row ;;;
        import_rows self rest (line_count + 1)
      else raise CsvError
  end.

Definition import_data_from_csv (self : DynamoDbDatabase) (csv_file_name : string)
  : M unit :=
  csv_reader <- csv_read csv_file_name ;;
  let line_count := 0%nat in
  import_rows self csv_reader line_count ;;;
  log_info ("KEYSTORE - CSV File: " +:+ csv_file_name
            +:+ " content has been successfully imported into DynamoDb Tables.").

(** [for x in range(count): data.append([...])]; [first i] is
    [response['Items'][0][i]]. *)
Fixpoint export_rows (count : nat) (complete_name : string) (response : QueryOutput)
  (data : list (list string)) : M (list (list string)) :=
  match count with
  | O => ret data
  | S count' =>
      it <- match Items response !! 0%nat with
            | Some it => ret it
            | None => raise IndexError
            end ;;
      export_rows count' complete_name response
        (data ++ [[complete_name; item_key it; item_value it; item_datetime it]])
  end.

Definition export_data_to_csv (self : DynamoDbDatabase)
  (table_name key csv_file_name : string) : M unit :=
  let complete_name := get_complete_name self table_name in
  table <- get_table_resource self complete_name ;;
  if truthy table then
    response <- table_query table (KeyEq "key" key) None false ;;
    if (Count response =? 0)%nat then
      log_info "KEYSTORE - No values found with provided key"
    else
      let count := Count response in
      let header := ["table"; "key"; "value"; "datetime_yyyymmdd"] in
      data <- export_rows count complete_name response [] ;;
      csv_write csv_file_name header data ;;;
      log_info ("KEYSTORE - CSV File: " +:+ csv_file_name +:+ " has been exported.")
  else
    log_info "KEYSTORE - Provided table does not exist in the database.".

(** ** Concrete clients and worlds, used to run the operations *)

(** A client on the development node: suffix [_dev]. *)
Definition dev_client : DynamoDbDatabase := __init__ "dfhdpetl02.etl.local" None.

(** A table as [create_table] makes it, holding [m]. *)
Definition keystore_table (m : gmap (string * string) string) : Table :=
  mkTable [("key", "HASH"); ("datetime", "RANGE")] [("key", "S"); ("datetime", "S")]
    (_DEF_PROVISIONED_THROUGHPUT, _DEF_PROVISIONED_THROUGHPUT) m.

Definition empty_world : World := mkWorld ∅ ∅ [] [].

(** Table [orders_dev] with two items under key [o1]. *)
Definition orders_table : Table :=
  keystore_table
    (<[("o1", "2023-01-01T00:00:00") := "100"]>
       (<[("o1", "2023-01-02T00:00:00") := "150"]> ∅)).

Definition orders_world : World :=
  mkWorld (<["orders_dev" := orders_table]> ∅) ∅ [] [].

(** Table [orders_dev] holding one item written at 01:30 daylight time on
    the night the clocks go back. *)
Definition fallback_table : Table :=
  keystore_table (<[("o1", "2023-11-05T01:30:00-05:00") := "old"]> ∅).

Definition fallback_world : World :=
  mkWorld (<["orders_dev" := fallback_table]> ∅) ∅ [] [].

(** Forty minutes later, read in US/Central: 01:10 standard time. *)
Definition after_fallback : datetime := mkdatetime 2023 11 5 1 10 0 0 (Some (-360)).

(** A string of [n] bytes. *)
Definition blob (n : N) : string := N.iter n (String "x"%char) "".

(** Table [blobs_dev] with three items of 400 KB under key [k]. *)
Definition blobs_table : Table :=
  keystore_table
    (<[("k", "2023-01-01T00:00:00") := blob 400000]>
       (<[("k", "2023-01-02T00:00:00") := blob 400000]>
          (<[("k", "2023-01-03T00:00:00") := blob 400000]> ∅))).

Definition blobs_world : World :=
  mkWorld (<["blobs_dev" := blobs_table]> ∅) ∅ [] [].

(** A clock reading after every datetime of [orders_table]. *)
Definition march_2023 : datetime := mkdatetime 2023 3 1 9 15 0 250000 (Some (-360)).

(** A world whose only file names a table that already carries the suffix. *)
Definition suffixed_csv_world : World :=
  mkWorld ∅ (<["in.csv" := CsvFile [["orders_dev"; "o1"; "100"; "20230101"]] true]> ∅)
    [] [].

(** A clock reading on an ordinary day. *)
Definition june_2024 : datetime := mkdatetime 2024 6 3 14 5 9 0 (Some (-300)).




(** A row that [import_data_from_csv] cannot read: no fourth field, or a
    fourth field in ASCII that [strptime] rejects. *)
Definition malformed (row : list string) : bool :=
  match row !! 3%nat with
  | Some r3 =>
      is_ascii r3
      && match strptime_Ymd r3 with
         | Some _ => false
         | None => true
         end
  | None => true
  end.

(** [w2] has the files of [w1], every table of [w1] with its items, and
    beyond them only tables without items. *)
Definition keeps_items (w1 w2 : World) : Prop :=
  files w2 = files w1
  /\ (forall n t, tables w1 !! n = Some t -> tables w2 !! n = Some t)
  /\ (forall n t, tables w2 !! n = Some t ->
                  tables w1 !! n = Some t \/ table_items t = ∅).

(** A file whose first row has a fifth field. *)
Definition five_fields_world : World :=
  mkWorld ∅
    (<["in.csv" := CsvFile [["orders"; "o1"; "100"; "20230101"; "extra"];
                            ["orders"; "o1"; "150"; "20230102"]] true]> ∅) [] [].

(** A file whose second row has no date. *)
Definition short_row_world : World :=
  mkWorld ∅
    (<["in.csv" := CsvFile [["orders"; "o1"; "100"; "20230101"];
                            ["orders"; "o1"; "150"];
                            ["orders"; "o1"; "200"; "20230103"]] true]> ∅) [] [].

(** What the first lines of the import loop body do for a row whose first
    field is [r0]: [w'] is [w], or [w] with the table under the lower-cased
    name added, empty, when neither that table nor the table under the name as
    read exists. *)
Definition ensured (self : DynamoDbDatabase) (r0 : string) (w w' : World) : Prop :=
  let table := r0 +:+ suffix self in
  let created := get_complete_name self (lower table) in
  files w' = files w
  /\ (((is_Some (tables w !! table) \/ is_Some (tables w !! created))
       /\ tables w' = tables w)
      \/ (tables w !! table = None /\ tables w !! created = None
          /\ tables w' = <[created := keystore_table ∅]> (tables w))).

(** [w1] has every table of [w], and in each of them every (key, datetime)
    pair that [w] stores. *)
Definition keeps_keys (w w1 : World) : Prop :=
  forall n tb,
    tables w !! n = Some tb ->
    exists tb1,
      tables w1 !! n = Some tb1
      /\ forall p, is_Some (table_items tb !! p) -> is_Some (table_items tb1 !! p).

(** A row the import loop goes through: no field above the limit of the
    reader, four fields or more, a table name in ASCII without a capital
    letter, a date the parser takes, and an item within the limits of the
    service. *)
Definition importable (self : DynamoDbDatabase) (row : list string) : bool :=
  match row with
  | r0 :: key :: value :: yyyymmdd :: _ =>
      readable_row row
      && is_ascii (r0 +:+ suffix self)
      && negb (has_upper (r0 +:+ suffix self))
      && match strptime_Ymd yyyymmdd with
         | Some d => valid_item (mkItem key (isoformat d) value)
         | None => false
         end
  | _ => false
  end.

(** A file with a row whose table name is written with a capital letter. *)
Definition mixed_case_csv_world : World :=
  mkWorld ∅ (<["in.csv" := CsvFile [["Orders"; "o1"; "100"; "20230101"]] true]> ∅) [] [].

(** A file of two rows for the same table and key. *)
Definition two_rows_world : World :=
  mkWorld ∅
    (<["in.csv" := CsvFile [["orders"; "o1"; "100"; "20230101"];
                            ["orders"; "o1"; "150"; "20230102"]] true]> ∅) [] [].

(** The fields of a clock reading are those of a civil date and time. *)
Definition civil (dt : datetime) : Prop :=
  1 <= year dt <= 9999 /\ 1 <= month dt <= 12
  /\ 1 <= day dt <= days_in_month (year dt) (month dt)
  /\ 0 <= hour dt <= 23 /\ 0 <= minute dt <= 59 /\ 0 <= second dt <= 59.

(** * Properties *)

(** ** Strings *)

Lemma append_nil (s : string) : "" +:+ s = s.
Proof. reflexivity. Qed.

Lemma append_cons (c : ascii) (p s : string) :
  String c p +:+ s = String c (p +:+ s).
Proof. reflexivity. Qed.

Lemma endswith_refl (s : string) : endswith s s = true.
Proof. destruct s; cbn [endswith]; rewrite String.eqb_refl; reflexivity. Qed.

Lemma endswith_app (p suf : string) : endswith (p +:+ suf) suf = true.
Proof.
  induction p as [|c p IH]; rewrite ?append_nil, ?append_cons; cbn [endswith].
  - apply endswith_refl.
  - rewrite IH. destruct (String.eqb _ _); reflexivity.
Qed.

Lemma endswith_spec (s suf : string) :
  endswith s suf = true <-> exists p, s = p +:+ suf.
Proof.
  split.
  - induction s as [|c s IH]; cbn [endswith].
    + destruct (String.eqb_spec "" suf) as [<-|]; [|discriminate].
      intros _. exists "". reflexivity.
    + destruct (String.eqb_spec (String c s) suf) as [<-|].
      * intros _. exists "". reflexivity.
      * intros H. destruct (IH H) as [p ->]. exists (String c p). reflexivity.
  - intros [p ->]. apply endswith_app.
Qed.

Lemma length_app (s1 s2 : string) :
  String.length (s1 +:+ s2) = (String.length s1 + String.length s2)%nat.
Proof. induction s1; rewrite ?append_nil, ?append_cons; simpl; congruence. Qed.

Lemma app_eq_self (s suf : string) : s +:+ suf = s -> suf = "".
Proof.
  intros H. apply (f_equal String.length) in H. rewrite length_app in H.
  destruct suf; [reflexivity|simpl in H; lia].
Qed.

Lemma suffix_init (host : string) (url : option string) :
  suffix (__init__ host url) = "_dev" \/ suffix (__init__ host url) = "_prod".
Proof.
  unfold __init__; simpl.
  destruct (contains host _DEV_ETL_NODE); [left; reflexivity|].
  destruct (contains host _PROD_ETL_NODE); [right|left]; reflexivity.
Qed.

Lemma has_upper_app (s1 s2 : string) :
  has_upper (s1 +:+ s2) = has_upper s1 || has_upper s2.
Proof.
  induction s1; rewrite ?append_nil, ?append_cons; simpl; [reflexivity|].
  rewrite IHs1. apply orb_assoc.
Qed.

Lemma is_upper_lower_ascii (c : ascii) : is_upper (lower_ascii c) = false.
Proof.
  destruct c as [[] [] [] [] [] [] [] []]; reflexivity.
Qed.

Lemma has_upper_lower (s : string) : has_upper (lower s) = false.
Proof.
  induction s; simpl; [reflexivity|].
  rewrite is_upper_lower_ascii, IHs. reflexivity.
Qed.

Lemma lower_app (s1 s2 : string) : lower (s1 +:+ s2) = lower s1 +:+ lower s2.
Proof.
  induction s1 as [|c s1 IH]; [reflexivity|].
  rewrite append_cons. cbn [lower]. rewrite IH. reflexivity.
Qed.

Lemma lower_no_upper (s : string) : has_upper s = false -> lower s = s.
Proof.
  induction s as [|c s IH]; simpl; [reflexivity|].
  intros H. apply orb_false_iff in H as [Hc Hs].
  unfold lower_ascii. rewrite Hc, (IH Hs). reflexivity.
Qed.

Lemma has_upper_suffix (host : string) (url : option string) :
  has_upper (suffix (__init__ host url)) = false.
Proof. destruct (suffix_init host url) as [-> | ->]; reflexivity. Qed.

(** ** Name resolution *)

Lemma get_complete_name_endswith (self : DynamoDbDatabase) (t : string) :
  endswith (get_complete_name self t) (suffix self) = true.
Proof.
  unfold get_complete_name.
  destruct (endswith t (suffix self)) eqn:E; [exact E|apply endswith_app].
Qed.

Lemma get_complete_name_idem (self : DynamoDbDatabase) (t : string) :
  get_complete_name self (get_complete_name self t) = get_complete_name self t.
Proof.
  unfold get_complete_name at 1. rewrite get_complete_name_endswith. reflexivity.
Qed.

(** C6: name resolution appends the active suffix exactly when the name does
    not already end with it, leaves the name alone otherwise, and resolving
    twice is resolving once. *)
Theorem C6_resolve_appends_iff_missing_and_idempotent
  (host : string) (url : option string) (t : string) :
  let self := __init__ host url in
  (get_complete_name self t = t +:+ suffix self
     <-> endswith t (suffix self) = false)
  /\ (get_complete_name self t = t <-> endswith t (suffix self) = true)
  /\ get_complete_name self (get_complete_name self t) = get_complete_name self t.
Proof.
  intros self.
  assert (Hne : suffix self <> "")
    by (destruct (suffix_init host url) as [E | E]; subst self; rewrite E; discriminate).
  repeat split.
  - unfold get_complete_name.
    destruct (endswith t (suffix self)); [|reflexivity].
    intros H. symmetry in H. apply app_eq_self in H. contradiction.
  - unfold get_complete_name. intros ->. reflexivity.
  - unfold get_complete_name.
    destruct (endswith t (suffix self)); [reflexivity|].
    intros H. apply app_eq_self in H. contradiction.
  - unfold get_complete_name. intros ->. reflexivity.
  - apply get_complete_name_idem.
Qed.

(** ** The order of sort keys *)

Lemma ascii_compare_lt_trans (a b c : ascii) :
  Ascii.compare a b = Lt -> Ascii.compare b c = Lt -> Ascii.compare a c = Lt.
Proof.
  unfold Ascii.compare. rewrite !N.compare_lt_iff. lia.
Qed.

Lemma ascii_compare_refl (c : ascii) : Ascii.compare c c = Eq.
Proof. unfold Ascii.compare. apply N.compare_refl. Qed.

Lemma string_compare_refl (s : string) : String.compare s s = Eq.
Proof.
  induction s as [|c s IH]; simpl; [reflexivity|].
  rewrite ascii_compare_refl. exact IH.
Qed.

Lemma string_compare_lt_trans (s1 : string) :
  forall s2 s3, String.compare s1 s2 = Lt -> String.compare s2 s3 = Lt ->
                String.compare s1 s3 = Lt.
Proof.
  induction s1 as [|a s1 IH]; intros [|b s2] [|c s3]; simpl; try congruence.
  destruct (Ascii.compare a b) eqn:Eab; try discriminate;
    destruct (Ascii.compare b c) eqn:Ebc; try discriminate; intros H1 H2.
  - apply Ascii.compare_eq_iff in Eab, Ebc. subst.
    rewrite ascii_compare_refl. eauto.
  - apply Ascii.compare_eq_iff in Eab. subst. rewrite Ebc. reflexivity.
  - apply Ascii.compare_eq_iff in Ebc. subst. rewrite Eab. reflexivity.
  - rewrite (ascii_compare_lt_trans _ _ _ Eab Ebc). reflexivity.
Qed.

Lemma string_leb_trans (s1 s2 s3 : string) :
  String.leb s1 s2 = true -> String.leb s2 s3 = true -> String.leb s1 s3 = true.
Proof.
  unfold String.leb.
  destruct (String.compare s1 s2) eqn:E12; try discriminate;
    destruct (String.compare s2 s3) eqn:E23; try discriminate; intros _ _.
  - apply String.compare_eq_iff in E12, E23. subst.
    rewrite string_compare_refl. reflexivity.
  - apply String.compare_eq_iff in E12. subst. rewrite E23. reflexivity.
  - apply String.compare_eq_iff in E23. subst. rewrite E12. reflexivity.
  - rewrite (string_compare_lt_trans _ _ _ E12 E23). reflexivity.
Qed.

Lemma string_leb_refl (s : string) : String.leb s s = true.
Proof. unfold String.leb. rewrite string_compare_refl. reflexivity. Qed.

#[global] Instance sort_key_order_trans fwd : Transitive (sort_key_order fwd).
Proof.
  intros a b c. unfold sort_key_order. destruct fwd; intros H1 H2.
  - exact (string_leb_trans _ _ _ H1 H2).
  - exact (string_leb_trans _ _ _ H2 H1).
Qed.

#[global] Instance sort_key_order_total fwd : Total (sort_key_order fwd).
Proof.
  intros a b. unfold sort_key_order. destruct fwd; apply String.leb_total.
Qed.

(** ** Queries *)

Lemma elem_of_items_of (t : Table) (it : Item) :
  it ∈ items_of t
  <-> table_items t !! (item_key it, item_datetime it) = Some (item_value it).
Proof.
  unfold items_of. rewrite list_elem_of_fmap. split.
  - intros [[[k d] v] [-> H]]. simpl. apply elem_of_map_to_list in H. exact H.
  - intros H. exists (item_key it, item_datetime it, item_value it). split.
    + destruct it; reflexivity.
    + apply elem_of_map_to_list. exact H.
Qed.

Lemma NoDup_items_of (t : Table) : NoDup (items_of t).
Proof.
  unfold items_of. apply NoDup_fmap_2; [|apply NoDup_map_to_list].
  intros [[k1 d1] v1] [[k2 d2] v2]; simpl. congruence.
Qed.

Lemma select_all_perm (t : Table) (cond : Condition) (fwd : bool) :
  select t cond None fwd ≡ₚ List.filter (holds cond) (items_of t).
Proof. unfold select. apply merge_sort_Permutation. Qed.

Lemma elem_of_select_all (t : Table) (cond : Condition) (fwd : bool) (it : Item) :
  it ∈ select t cond None fwd
  <-> table_items t !! (item_key it, item_datetime it) = Some (item_value it)
      /\ holds cond it = true.
Proof.
  rewrite select_all_perm, list_elem_of_In, filter_In, <- list_elem_of_In.
  rewrite elem_of_items_of. reflexivity.
Qed.

Lemma NoDup_select_all (t : Table) (cond : Condition) (fwd : bool) :
  NoDup (select t cond None fwd).
Proof.
  rewrite select_all_perm. apply NoDup_ListNoDup, List.NoDup_filter.
  apply NoDup_ListNoDup, NoDup_items_of.
Qed.

Lemma select_all_sorted (t : Table) (cond : Condition) (fwd : bool) :
  StronglySorted (sort_key_order fwd) (select t cond None fwd).
Proof. unfold select. apply StronglySorted_merge_sort; apply _. Qed.

Lemma select_limit (t : Table) (cond : Condition) (n : nat) (fwd : bool) :
  select t cond (Some n) fwd = take n (select t cond None fwd).
Proof. reflexivity. Qed.

(** The first item of a descending query carries the greatest sort key. *)
Lemma select_head_greatest (t : Table) (cond : Condition) (first : Item)
  (rest : list Item) :
  select t cond None false = first :: rest ->
  forall it, it ∈ select t cond None false ->
             String.leb (item_datetime it) (item_datetime first) = true.
Proof.
  intros E it Hin. pose proof (select_all_sorted t cond false) as S.
  rewrite E in S, Hin. apply StronglySorted_inv in S as [_ Hall].
  apply elem_of_cons in Hin as [-> | Hin]; [apply string_leb_refl|].
  rewrite Forall_forall in Hall. apply (Hall it). exact Hin.
Qed.

(** ** Pages *)

Lemma byte_length_nonneg (s : string) : 0 <= byte_length s.
Proof. unfold byte_length. lia. Qed.

Lemma item_size_pos (it : Item) : 24 <= item_size it.
Proof.
  unfold item_size.
  pose proof (byte_length_nonneg (item_key it)).
  pose proof (byte_length_nonneg (item_datetime it)).
  pose proof (byte_length_nonneg (item_value it)). lia.
Qed.

Lemma page_of_prefix (budget : Z) (l : list Item) : page_of budget l `prefix_of` l.
Proof.
  revert budget. induction l as [|it rest IH]; intros budget; cbn [page_of].
  - reflexivity.
  - destruct (item_size it <=? budget).
    + apply prefix_cons, IH.
    + apply prefix_nil.
Qed.

Lemma first_page_prefix (l : list Item) : first_page l `prefix_of` l.
Proof.
  destruct l as [|it rest]; cbn [first_page]; [reflexivity|].
  apply prefix_cons, page_of_prefix.
Qed.

Lemma elem_of_first_page (l : list Item) (it : Item) :
  it ∈ first_page l -> it ∈ l.
Proof.
  intros H. destruct (first_page_prefix l) as [k Hk]. rewrite Hk.
  apply elem_of_app. left. exact H.
Qed.

Lemma length_first_page (l : list Item) :
  (length (first_page l) <= length l)%nat.
Proof. apply prefix_length, first_page_prefix. Qed.

Lemma first_page_take_1 (l : list Item) : first_page (take 1 l) = take 1 l.
Proof. destruct l as [|it [|it' rest]]; reflexivity. Qed.

Lemma page_of_fits (budget : Z) (l : list Item) :
  foldr (fun it acc => item_size it + acc) 0 l <= budget -> page_of budget l = l.
Proof.
  revert budget. induction l as [|it rest IH]; intros budget H; cbn [page_of foldr] in *.
  - reflexivity.
  - assert (0 <= foldr (fun it acc => item_size it + acc) 0 rest).
    { clear. induction rest as [|a r IHr]; cbn [foldr]; [lia|].
      pose proof (item_size_pos a). lia. }
    rewrite (proj2 (Z.leb_le _ _)) by lia. f_equal. apply IH. lia.
Qed.

(** A result that fits in one page is returned whole. *)
Lemma first_page_fits (l : list Item) : fits_one_page l = true -> first_page l = l.
Proof.
  unfold fits_one_page. intros H. apply Z.leb_le in H.
  destruct l as [|it rest]; cbn [first_page foldr] in *; [reflexivity|].
  f_equal. apply page_of_fits. lia.
Qed.

Lemma byte_length_blob (n : N) : byte_length (blob n) = Z.of_N n.
Proof.
  unfold blob, byte_length. induction n as [|n IH] using N.peano_ind; [reflexivity|].
  rewrite N.iter_succ. cbn [String.length]. lia.
Qed.

(** Of three items of 400 KB the first page holds two. *)
Lemma three_blobs_first_page (v : string) (k d1 d2 d3 : string) :
  byte_length v = 400000 ->
  byte_length k + byte_length d1 <= 1000 ->
  byte_length k + byte_length d2 <= 1000 ->
  byte_length k + byte_length d3 <= 1000 ->
  first_page [mkItem k d3 v; mkItem k d2 v; mkItem k d1 v]
  = [mkItem k d3 v; mkItem k d2 v].
Proof.
  intros Hv H1 H2 H3.
  pose proof (byte_length_nonneg k). pose proof (byte_length_nonneg d1).
  pose proof (byte_length_nonneg d2). pose proof (byte_length_nonneg d3).
  unfold first_page, page_of, item_size, page_bytes.
  cbn [item_key item_datetime item_value]. rewrite Hv.
  rewrite (proj2 (Z.leb_le _ _)) by lia.
  rewrite (proj2 (Z.leb_gt _ _)) by lia. reflexivity.
Qed.

(** ** Files *)

Lemma csv_write_ok (path : string) (header : list string)
  (data : list (list string)) (w : World) :
  writable_path w path = true ->
  csv_write path header data w
  = (Ok tt, set_files w (<[path := CsvFile (header :: data) true]> (files w))).
Proof.
  unfold writable_path, csv_write. intros H.
  apply andb_true_iff in H as [Hp Hf]. apply negb_true_iff in Hp. rewrite Hp.
  destruct (files w !! path) as [[rows [|]| | |]|]; try discriminate; reflexivity.
Qed.

Lemma writable_path_nonempty (w : World) (path : string) :
  writable_path w path = true -> path <> "".
Proof.
  unfold writable_path. intros H. apply andb_true_iff in H as [H _].
  apply negb_true_iff, String.eqb_neq in H. exact H.
Qed.

Lemma csv_read_ok (path : string) (rows : list (list string)) (writable : bool)
  (w : World) :
  path <> "" ->
  files w !! path = Some (CsvFile rows writable) ->
  csv_read path w = (Ok rows, w).
Proof.
  intros Hp Hf. unfold csv_read.
  rewrite (proj2 (String.eqb_neq _ _)) by exact Hp. rewrite Hf. reflexivity.
Qed.

(** Whatever [csv_write] does, it leaves the tables, the log, the output and
    every other path alone. *)
Lemma csv_write_frame (path : string) (header : list string)
  (data : list (list string)) (w : World) :
  tables (snd (csv_write path header data w)) = tables w
  /\ log (snd (csv_write path header data w)) = log w
  /\ stdout (snd (csv_write path header data w)) = stdout w
  /\ (forall p, p <> path ->
        files (snd (csv_write path header data w)) !! p = files w !! p)
  /\ (fst (csv_write path header data w) <> Ok tt ->
        snd (csv_write path header data w) = w).
Proof.
  unfold csv_write.
  destruct (String.eqb path ""); [repeat split; congruence|].
  destruct (files w !! path) as [[rows [|]| | |]|]; cbn [fst snd set_files tables log stdout files];
    repeat split; try congruence;
    intros p Hp; rewrite lookup_insert_ne by congruence; reflexivity.
Qed.

(** ** Export *)

Lemma holds_key_eq (key : string) (it : Item) :
  holds (KeyEq "key" key) it = String.eqb (item_key it) key.
Proof. reflexivity. Qed.

Lemma length_select_all (t : Table) (cond : Condition) (fwd : bool) :
  length (select t cond None fwd) = length (List.filter (holds cond) (items_of t)).
Proof. apply Permutation_length, select_all_perm. Qed.

Lemma export_rows_repeat (count : nat) (complete_name : string)
  (response : QueryOutput) (first : Item) :
  Items response !! 0%nat = Some first ->
  forall data w,
    export_rows count complete_name response data w
    = (Ok (data ++ replicate count
             [complete_name; item_key first; item_value first; item_datetime first])%list,
       w).
Proof.
  intros H0. induction count as [|n IH]; intros data w; cbn [export_rows].
  - unfold ret. rewrite app_nil_r. reflexivity.
  - unfold bind at 1. rewrite H0. unfold ret at 1. rewrite IH.
    rewrite <- app_assoc. reflexivity.
Qed.

(** What [export_data_to_csv] does when the query returns at least one item. *)
Lemma export_nonempty (self : DynamoDbDatabase) (table_name key path : string)
  (w : World) (t : Table) (first : Item) (rest : list Item) :
  tables w !! get_complete_name self table_name = Some t ->
  select t (KeyEq "key" key) None false = first :: rest ->
  export_data_to_csv self table_name key path w
  = (data <- ret (replicate (length (first_page (first :: rest)))
                    [get_complete_name self table_name; item_key first;
                     item_value first; item_datetime first]) ;;
     csv_write path ["table"; "key"; "value"; "datetime_yyyymmdd"] data ;;;
     log_info ("KEYSTORE - CSV File: " +:+ path +:+ " has been exported.")) w.
Proof.
  intros Ht Hsel.
  unfold export_data_to_csv, get_table_resource, truthy, table_query.
  unfold bind at 1. unfold ret at 1. unfold bind at 1. cbn [name].
  rewrite get_complete_name_idem, Ht, Hsel.
  cbn [first_page Count Items length Nat.eqb].
  unfold bind at 1.
  rewrite (export_rows_repeat _ _ _ first) by reflexivity.
  reflexivity.
Qed.

(** The same, when the file can be written. *)
Lemma export_written (self : DynamoDbDatabase) (table_name key path : string)
  (w : World) (t : Table) (first : Item) (rest : list Item) :
  tables w !! get_complete_name self table_name = Some t ->
  select t (KeyEq "key" key) None false = first :: rest ->
  writable_path w path = true ->
  export_data_to_csv self table_name key path w
  = (Ok tt,
     mkWorld (tables w)
       (<[path :=
            CsvFile
              (["table"; "key"; "value"; "datetime_yyyymmdd"]
               :: replicate (length (first_page (first :: rest)))
                    [get_complete_name self table_name; item_key first;
                     item_value first; item_datetime first]) true]> (files w))
       (log w ++ ["KEYSTORE - CSV File: " +:+ path +:+ " has been exported."])%list
       (stdout w)).
Proof.
  intros Ht Hsel Hw.
  rewrite (export_nonempty self table_name key path w t first rest Ht Hsel).
  unfold bind at 1. unfold ret at 1. unfold bind at 1.
  rewrite csv_write_ok by exact Hw. reflexivity.
Qed.

(** C1 (amended): with N >= 1 items stored under the key, and a path that
    can be opened for writing, the exported file is the header row followed by
    exactly M data rows, M the number of items on the first page of the
    descending query: at least 1, at most N, and N when the N items fit
    in one page.  Each data row is the complete table name and the key,
    value and datetime of the first item of the query, the stored item of
    that key with the greatest datetime. *)
Theorem C1_export_writes_one_row_per_item_of_first_page
  (self : DynamoDbDatabase) (table_name key path : string) (w : World) (t : Table) :
  let N := length (List.filter (fun it => String.eqb (item_key it) key) (items_of t)) in
  let result := select t (KeyEq "key" key) None false in
  let M := length (first_page result) in
  tables w !! get_complete_name self table_name = Some t ->
  (1 <= N)%nat ->
  writable_path w path = true ->
  (1 <= M <= N)%nat
  /\ (fits_one_page result = true -> M = N)
  /\ exists first : Item,
       table_items t !! (key, item_datetime first) = Some (item_value first)
       /\ item_key first = key
       /\ (forall d v, table_items t !! (key, d) = Some v ->
                       String.leb d (item_datetime first) = true)
       /\ export_data_to_csv self table_name key path w
          = (Ok tt,
             mkWorld (tables w)
               (<[path :=
                    CsvFile
                      (["table"; "key"; "value"; "datetime_yyyymmdd"]
                       :: replicate M
                            [get_complete_name self table_name; key;
                             item_value first; item_datetime first]) true]> (files w))
               (log w ++ ["KEYSTORE - CSV File: " +:+ path +:+ " has been exported."])%list
               (stdout w)).
Proof.
  intros N result M Ht HN Hw. subst result M.
  assert (HlenN : length (select t (KeyEq "key" key) None false) = N)
    by apply length_select_all.
  pose proof (length_first_page (select t (KeyEq "key" key) None false)) as Hle.
  destruct (select t (KeyEq "key" key) None false) as [|first rest] eqn:Hsel;
    [simpl in HlenN; lia|].
  assert (Hfirst : first ∈ select t (KeyEq "key" key) None false)
    by (rewrite Hsel; apply elem_of_cons; left; reflexivity).
  apply elem_of_select_all in Hfirst as [Hstored Hkey].
  rewrite holds_key_eq in Hkey. apply String.eqb_eq in Hkey.
  split; [cbn [first_page length] in *; lia|].
  split; [intros Hfit; rewrite (first_page_fits _ Hfit); exact HlenN|].
  exists first. rewrite Hkey in Hstored. repeat split; try assumption.
  - intros d v Hdv.
    apply (select_head_greatest t (KeyEq "key" key) first rest Hsel (mkItem key d v)).
    apply elem_of_select_all. simpl. rewrite String.eqb_refl. auto.
  - rewrite (export_written self table_name key path w t first rest Ht Hsel Hw).
    rewrite Hkey. reflexivity.
Qed.

Lemma C1_export_writes_one_row_per_item_of_first_page_witness :
  (1 <= 2 <= 2)%nat
  /\ (fits_one_page (select orders_table (KeyEq "key" "o1") None false) = true
      -> 2%nat = 2%nat)
  /\ exists first : Item,
       table_items orders_table !! ("o1", item_datetime first) = Some (item_value first)
       /\ item_key first = "o1"
       /\ (forall d v, table_items orders_table !! ("o1", d) = Some v ->
                       String.leb d (item_datetime first) = true)
       /\ export_data_to_csv dev_client "orders" "o1" "out.csv" orders_world
          = (Ok tt,
             mkWorld (tables orders_world)
               (<["out.csv" :=
                    CsvFile
                      (["table"; "key"; "value"; "datetime_yyyymmdd"]
                       :: replicate 2
                            [get_complete_name dev_client "orders"; "o1";
                             item_value first; item_datetime first]) true]>
                  (files orders_world))
               (log orders_world
                ++ ["KEYSTORE - CSV File: " +:+ "out.csv" +:+ " has been exported."])%list
               (stdout orders_world)).
Proof.
  apply (C1_export_writes_one_row_per_item_of_first_page
           dev_client "orders" "o1" "out.csv" orders_world orders_table).
  - vm_compute. reflexivity.
  - vm_compute. lia.
  - vm_compute. reflexivity.
Defined.

(** Three items of 400 KB under one key: the first page of the query holds
    two of them, and the exported file has two data rows. *)
Lemma C1_three_items_stored_two_rows_written :
  length (List.filter (fun it => String.eqb (item_key it) "k") (items_of blobs_table))
  = 3%nat
  /\ export_data_to_csv dev_client "blobs" "k" "out.csv" blobs_world
     = (Ok tt,
        mkWorld (tables blobs_world)
          (<["out.csv" :=
               CsvFile
                 [["table"; "key"; "value"; "datetime_yyyymmdd"];
                  ["blobs_dev"; "k"; blob 400000; "2023-01-03T00:00:00"];
                  ["blobs_dev"; "k"; blob 400000; "2023-01-03T00:00:00"]] true]> ∅)
          ["KEYSTORE - CSV File: out.csv has been exported."] []).
Proof.
  unfold blobs_world, blobs_table.
  pose proof (byte_length_blob 400000) as Hv. revert Hv.
  generalize (blob 400000). intros v Hv. split; [vm_compute; reflexivity|].
  set (tb := keystore_table _).
  rewrite (export_written dev_client "blobs" "k" "out.csv"
             (mkWorld (<["blobs_dev" := tb]> ∅) ∅ [] []) tb
             (mkItem "k" "2023-01-03T00:00:00" v)
             [mkItem "k" "2023-01-02T00:00:00" v; mkItem "k" "2023-01-01T00:00:00" v]);
    [|vm_compute; reflexivity..].
  rewrite (three_blobs_first_page v) by (try exact Hv; vm_compute; discriminate).
  vm_compute. reflexivity.
Qed.

(** ** Writing an item, reading the latest *)

Lemma put_item_into_table_ok (self : DynamoDbDatabase) (table_name key value : string)
  (dt : datetime) (w : World) (t : Table) :
  tables w !! get_complete_name self (lower table_name) = Some t ->
  valid_item (mkItem key (isoformat dt) value) = true ->
  put_item_into_table self table_name key value dt w
  = (Ok (Some put_item_output),
     mkWorld
       (<[get_complete_name self (lower table_name) :=
            with_items t (<[(key, isoformat dt) := value]> (table_items t))]> (tables w))
       (files w)
       (log w ++ ["KEYSTORE - A new item has been added to the table."])%list
       (stdout w)).
Proof.
  intros Ht Hv.
  unfold put_item_into_table, get_table_resource, truthy, table_put_item.
  unfold bind, ret. cbn [name].
  rewrite get_complete_name_idem, Ht, Hv. reflexivity.
Qed.

(** An item beyond the limits of the service is refused, and nothing is
    written. *)
Lemma put_item_into_table_refused (self : DynamoDbDatabase)
  (table_name key value : string) (dt : datetime) (w : World) (t : Table) :
  tables w !! get_complete_name self (lower table_name) = Some t ->
  valid_item (mkItem key (isoformat dt) value) = false ->
  put_item_into_table self table_name key value dt w = (Raise ValidationException, w).
Proof.
  intros Ht Hv.
  unfold put_item_into_table, get_table_resource, truthy, table_put_item.
  unfold bind, ret. cbn [name].
  rewrite get_complete_name_idem, Ht, Hv. reflexivity.
Qed.

Lemma get_latest_item_value_query (self : DynamoDbDatabase) (table_name key : string)
  (w : World) (t : Table) :
  tables w !! get_complete_name self table_name = Some t ->
  get_latest_item_value self table_name key w
  = match select t (KeyEq "key" key) None false with
    | [] =>
        (Ok None,
         mkWorld (tables w) (files w)
           (log w ++ ["KEYSTORE - No values found with provided key"])%list (stdout w))
    | first :: _ => (Ok (Some (item_value first)), w)
    end.
Proof.
  intros Ht.
  unfold get_latest_item_value, get_table_resource, truthy, table_query.
  unfold bind, ret. cbn [name].
  rewrite get_complete_name_idem, Ht, select_limit, first_page_take_1.
  destruct (select t (KeyEq "key" key) None false) as [|first rest]; reflexivity.
Qed.

(** The latest value is the value stored at the greatest datetime of the key. *)
Lemma get_latest_item_value_greatest (self : DynamoDbDatabase)
  (table_name key : string) (w : World) (t : Table) (d v : string) :
  tables w !! get_complete_name self table_name = Some t ->
  table_items t !! (key, d) = Some v ->
  (forall d' v', table_items t !! (key, d') = Some v' -> String.leb d' d = true) ->
  get_latest_item_value self table_name key w = (Ok (Some v), w).
Proof.
  intros Ht Hd Hmax. rewrite (get_latest_item_value_query _ _ _ _ _ Ht).
  assert (Hin : mkItem key d v ∈ select t (KeyEq "key" key) None false).
  { apply elem_of_select_all. simpl. rewrite String.eqb_refl. auto. }
  destruct (select t (KeyEq "key" key) None false) as [|first rest] eqn:Hsel.
  - apply elem_of_nil in Hin. contradiction.
  - rewrite <- Hsel in Hin.
    pose proof (select_head_greatest _ _ _ _ Hsel _ Hin) as Hle. simpl in Hle.
    assert (Hfirst : first ∈ select t (KeyEq "key" key) None false)
      by (rewrite Hsel; apply elem_of_cons; left; reflexivity).
    apply elem_of_select_all in Hfirst as [Hstored Hkey].
    rewrite holds_key_eq in Hkey. apply String.eqb_eq in Hkey.
    rewrite Hkey in Hstored.
    pose proof (Hmax _ _ Hstored) as Hge.
    pose proof (String.leb_antisym _ _ Hle Hge) as Heq.
    rewrite <- Heq, Hd in Hstored. congruence.
Qed.

(** C2 (amended): [get_latest_item_value] returns the value stored at the
    greatest datetime of the key, in byte order; and a [put_item_into_table]
    of an item within the limits of the service, under an ASCII name without
    a capital letter whose backing table exists, is read back by the next
    [get_latest_item_value] when the datetime string of the write is not
    below any datetime already stored under the key. *)
Theorem C2_latest_is_greatest_and_put_then_get
  (self : DynamoDbDatabase) (table_name key : string) (w : World) (t : Table) :
  tables w !! get_complete_name self table_name = Some t ->
  (forall d v,
      table_items t !! (key, d) = Some v ->
      (forall d' v', table_items t !! (key, d') = Some v' -> String.leb d' d = true) ->
      get_latest_item_value self table_name key w = (Ok (Some v), w))
  /\ (forall value dt,
         is_ascii table_name = true ->
         lower table_name = table_name ->
         valid_item (mkItem key (isoformat dt) value) = true ->
         (forall d' v', table_items t !! (key, d') = Some v' ->
                        String.leb d' (isoformat dt) = true) ->
         exists w1,
           put_item_into_table self table_name key value dt w
           = (Ok (Some put_item_output), w1)
           /\ get_latest_item_value self table_name key w1 = (Ok (Some value), w1)).
Proof.
  intros Ht. split.
  - intros d v Hd Hmax. exact (get_latest_item_value_greatest _ _ _ _ _ _ _ Ht Hd Hmax).
  - intros value dt _ Hlow Hvalid Hmax. eexists. split.
    + apply put_item_into_table_ok; [rewrite Hlow; exact Ht | exact Hvalid].
    + rewrite Hlow.
      apply (get_latest_item_value_greatest _ _ _ _
               (with_items t (<[(key, isoformat dt) := value]> (table_items t)))
               (isoformat dt) value).
      * cbn [tables]. apply lookup_insert_eq.
      * cbn [with_items table_items]. apply lookup_insert_eq.
      * cbn [with_items table_items]. intros d' v' H.
        destruct (decide (d' = isoformat dt)) as [-> | Hne].
        -- apply string_leb_refl.
        -- rewrite lookup_insert_ne in H by congruence. exact (Hmax _ _ H).
Qed.

Lemma C2_latest_is_greatest_and_put_then_get_witness :
  get_latest_item_value dev_client "orders" "o1" orders_world
  = (Ok (Some "150"), orders_world)
  /\ exists w1,
       put_item_into_table dev_client "orders" "o1" "175" march_2023 orders_world
       = (Ok (Some put_item_output), w1)
       /\ get_latest_item_value dev_client "orders" "o1" w1 = (Ok (Some "175"), w1).
Proof.
  assert (Ht : tables orders_world !! get_complete_name dev_client "orders"
               = Some orders_table) by (vm_compute; reflexivity).
  assert (Hall : forall (d' v' : string) (bound : string),
             String.leb "2023-01-01T00:00:00" bound = true ->
             String.leb "2023-01-02T00:00:00" bound = true ->
             table_items orders_table !! ("o1", d') = Some v' ->
             String.leb d' bound = true).
  { intros d' v' bound H1 H2 H. unfold orders_table, keystore_table in H.
    cbn [table_items] in H.
    destruct (decide (d' = "2023-01-01T00:00:00")) as [-> | N1]; [exact H1|].
    rewrite lookup_insert_ne in H by congruence.
    destruct (decide (d' = "2023-01-02T00:00:00")) as [-> | N2]; [exact H2|].
    rewrite lookup_insert_ne in H by congruence.
    rewrite lookup_empty in H. discriminate. }
  destruct (C2_latest_is_greatest_and_put_then_get
              dev_client "orders" "o1" orders_world orders_table Ht) as [Hget Hput].
  split.
  - apply (Hget "2023-01-02T00:00:00" "150").
    + vm_compute. reflexivity.
    + intros d' v'. apply Hall; vm_compute; reflexivity.
  - apply (Hput "175" march_2023).
    + vm_compute. reflexivity.
    + vm_compute. reflexivity.
    + vm_compute. reflexivity.
    + intros d' v'. apply Hall; vm_compute; reflexivity.
Defined.

(** C2, as stated, fails on the night the clocks go back: the item written
    forty minutes after one stamped 01:30-05:00 is stamped 01:10-06:00, sorts
    below it, and the read that follows the write returns the older value. *)
Lemma C2_put_then_get_returns_older_value :
  fst (put_item_into_table dev_client "orders" "o1" "new" after_fallback fallback_world)
  = Ok (Some put_item_output)
  /\ fst (get_latest_item_value dev_client "orders" "o1"
            (snd (put_item_into_table dev_client "orders" "o1" "new" after_fallback
                    fallback_world)))
     = Ok (Some "old")
  /\ "old" <> "new".
Proof. split; [|split]; [vm_compute; reflexivity ..| discriminate]. Qed.

(** ** Parsing and printing dates *)

Lemma nat_of_digit_char (z : Z) :
  nat_of_ascii (digit_char z) = Z.to_nat (48 + z mod 10).
Proof.
  unfold digit_char. apply nat_ascii_embedding.
  pose proof (Z.mod_pos_bound z 10 eq_refl). lia.
Qed.

Lemma is_digit_digit_char (z : Z) : is_digit (digit_char z) = true.
Proof.
  unfold is_digit. rewrite nat_of_digit_char.
  pose proof (Z.mod_pos_bound z 10 eq_refl).
  apply andb_true_iff. split; apply Nat.leb_le; lia.
Qed.

Lemma digit_val_digit_char (z : Z) : digit_val (digit_char z) = z mod 10.
Proof.
  unfold digit_val. rewrite nat_of_digit_char.
  pose proof (Z.mod_pos_bound z 10 eq_refl). lia.
Qed.

Lemma zfill_4 (y : Z) :
  zfill 4 y
  = String (digit_char (y / 10 / 10 / 10))
      (String (digit_char (y / 10 / 10))
         (String (digit_char (y / 10)) (String (digit_char y) ""))).
Proof. reflexivity. Qed.

Lemma match_Y_zfill (y : Z) (r : string) :
  0 <= y <= 9999 -> match_Y (zfill 4 y +:+ r) = Some (y, r).
Proof.
  intros Hy. rewrite zfill_4, !append_cons, append_nil. unfold match_Y.
  rewrite !is_digit_digit_char, !digit_val_digit_char. cbn [andb].
  do 2 f_equal. Z.to_euclidean_division_equations. lia.
Qed.

Lemma match_md_zfill (m d : Z) :
  1 <= m <= 12 -> 1 <= d <= 31 ->
  first_md (match_m (zfill 2 m +:+ zfill 2 d)) = Some (m, d, "").
Proof.
  intros Hm Hd.
  assert (Hall :
    forallb (fun m' => forallb (fun d' =>
      match first_md (match_m (zfill 2 m' +:+ zfill 2 d')) with
      | Some (m'', d'', rest) => (m'' =? m') && (d'' =? d') && String.eqb rest ""
      | None => false
      end) (seqZ 1 31)) (seqZ 1 12) = true) by (vm_compute; reflexivity).
  rewrite forallb_forall in Hall.
  assert (Hm' : In m (seqZ 1 12)) by (apply list_elem_of_In, elem_of_seqZ; lia).
  specialize (Hall m Hm'). rewrite forallb_forall in Hall.
  assert (Hd' : In d (seqZ 1 31)) by (apply list_elem_of_In, elem_of_seqZ; lia).
  specialize (Hall d Hd').
  destruct (first_md (match_m (zfill 2 m +:+ zfill 2 d))) as [[[m'' d''] rest]|];
    [|discriminate].
  apply andb_true_iff in Hall as [Hall Hr]. apply andb_true_iff in Hall as [H1 H2].
  apply Z.eqb_eq in H1, H2. apply String.eqb_eq in Hr. subst. reflexivity.
Qed.

Lemma days_in_month_le_31 (y m : Z) : days_in_month y m <= 31.
Proof.
  unfold days_in_month.
  repeat match goal with |- context [if ?b then _ else _] => destruct b end; lia.
Qed.

(** An eight-digit calendar date parses to its year, month and day at
    midnight, without a timezone. *)
Lemma strptime_Ymd_zfill (y m d : Z) :
  1 <= y <= 9999 -> 1 <= m <= 12 -> 1 <= d <= days_in_month y m ->
  strptime_Ymd (zfill 4 y +:+ zfill 2 m +:+ zfill 2 d)
  = Some (mkdatetime y m d 0 0 0 0 None).
Proof.
  intros Hy Hm Hd. pose proof (days_in_month_le_31 y m).
  unfold strptime_Ymd.
  rewrite match_Y_zfill by lia. rewrite match_md_zfill by lia.
  rewrite String.eqb_refl.
  rewrite (proj2 (Z.leb_le 1 y)) by lia.
  rewrite (proj2 (Z.leb_le d (days_in_month y m))) by lia.
  reflexivity.
Qed.

Lemma isoformat_midnight (y m d : Z) :
  isoformat (mkdatetime y m d 0 0 0 0 None)
  = zfill 4 y +:+ "-" +:+ zfill 2 m +:+ "-" +:+ zfill 2 d +:+ "T00:00:00".
Proof. reflexivity. Qed.

(** ** Items from a date on *)

Lemma get_items_greater_than_date_query (self : DynamoDbDatabase)
  (table_name key yyyymmdd : string) (w : World) (t : Table) (dt : datetime) :
  strptime_Ymd yyyymmdd = Some dt ->
  tables w !! get_complete_name self table_name = Some t ->
  get_items_greater_than_date self table_name key yyyymmdd w
  = match select t (CondAnd (KeyEq "key" key) (KeyGte "datetime" (isoformat dt)))
            None false with
    | [] =>
        (Ok None,
         mkWorld (tables w) (files w)
           (log w ++ ["KEYSTORE - No values were found."])%list (stdout w))
    | first :: rest => (Ok (Some (first_page (first :: rest))), w)
    end.
Proof.
  intros Hd Ht.
  unfold get_items_greater_than_date, get_table_resource, truthy, table_query.
  rewrite Hd. unfold bind, ret. cbn [name].
  rewrite get_complete_name_idem, Ht.
  destruct (select t _ None false) as [|first rest]; reflexivity.
Qed.

(** C3 (amended): for a calendar date written YYYYMMDD the floor of the
    query is the ISO-8601 string of that date at midnight, without a
    timezone; on an existing table the operation returns the first page of
    the result, and the result is exactly the items stored under the key
    whose datetime is at or above the floor in byte order, each once, in
    descending order of datetime.  The first page is the leading part of the
    result, never empty when the result is not, and the whole of it when the
    items fit in one page; the operation returns nothing when there is no
    such item. *)
Theorem C3_first_page_of_items_at_or_after_date
  (self : DynamoDbDatabase) (table_name key : string) (y m d : Z)
  (w : World) (t : Table) :
  1 <= y <= 9999 -> 1 <= m <= 12 -> 1 <= d <= days_in_month y m ->
  tables w !! get_complete_name self table_name = Some t ->
  let D := zfill 4 y +:+ zfill 2 m +:+ zfill 2 d in
  let floor := zfill 4 y +:+ "-" +:+ zfill 2 m +:+ "-" +:+ zfill 2 d +:+ "T00:00:00" in
  isoformat <$> strptime_Ymd D = Some floor
  /\ exists items : list Item,
       (forall it, it ∈ items
                   <-> item_key it = key
                       /\ table_items t !! (key, item_datetime it) = Some (item_value it)
                       /\ String.leb floor (item_datetime it) = true)
       /\ NoDup items
       /\ StronglySorted
            (fun a b => String.leb (item_datetime b) (item_datetime a) = true) items
       /\ get_items_greater_than_date self table_name key D w
          = match items with
            | [] =>
                (Ok None,
                 mkWorld (tables w) (files w)
                   (log w ++ ["KEYSTORE - No values were found."])%list (stdout w))
            | _ :: _ => (Ok (Some (first_page items)), w)
            end
       /\ (exists later, items = (first_page items ++ later)%list)
       /\ (fits_one_page items = true -> first_page items = items).
Proof.
  intros Hy Hm Hd Ht D floor.
  assert (Hparse : strptime_Ymd D = Some (mkdatetime y m d 0 0 0 0 None))
    by (apply strptime_Ymd_zfill; assumption).
  split; [rewrite Hparse; reflexivity|].
  exists (select t (CondAnd (KeyEq "key" key) (KeyGte "datetime" floor)) None false).
  split; [|split; [|split; [|split; [|split]]]].
  - intros it. rewrite elem_of_select_all.
    change (holds (CondAnd (KeyEq "key" key) (KeyGte "datetime" floor)) it)
      with (String.eqb (item_key it) key && String.leb floor (item_datetime it)).
    rewrite andb_true_iff, String.eqb_eq. split.
    + intros (Hs & Hk & Hf). rewrite Hk in Hs. auto.
    + intros (Hk & Hs & Hf). rewrite Hk. auto.
  - apply NoDup_select_all.
  - exact (select_all_sorted t _ false).
  - rewrite (get_items_greater_than_date_query _ _ _ _ _ _ _ Hparse Ht).
    rewrite isoformat_midnight. fold floor.
    destruct (select t _ None false); reflexivity.
  - apply first_page_prefix.
  - apply first_page_fits.
Qed.

Lemma C3_first_page_of_items_at_or_after_date_witness :
  isoformat <$> strptime_Ymd "20230102" = Some "2023-01-02T00:00:00"
  /\ exists items : list Item,
       (forall it, it ∈ items
                   <-> item_key it = "o1"
                       /\ table_items orders_table !! ("o1", item_datetime it)
                          = Some (item_value it)
                       /\ String.leb "2023-01-02T00:00:00" (item_datetime it) = true)
       /\ NoDup items
       /\ StronglySorted
            (fun a b => String.leb (item_datetime b) (item_datetime a) = true) items
       /\ get_items_greater_than_date dev_client "orders" "o1" "20230102" orders_world
          = match items with
            | [] =>
                (Ok None,
                 mkWorld (tables orders_world) (files orders_world)
                   (log orders_world ++ ["KEYSTORE - No values were found."])%list
                   (stdout orders_world))
            | _ :: _ => (Ok (Some (first_page items)), orders_world)
            end
       /\ (exists later, items = (first_page items ++ later)%list)
       /\ (fits_one_page items = true -> first_page items = items).
Proof.
  apply (C3_first_page_of_items_at_or_after_date dev_client "orders" "o1" 2023 1 2
           orders_world orders_table).
  - lia.
  - lia.
  - vm_compute. split; discriminate.
  - vm_compute. reflexivity.
Defined.

(** Three items of 400 KB are stored under the key from 1 January 2023 on:
    the operation returns the two latest, and the item of 1 January,
    stored and at the floor, is not among them. *)
Lemma C3_three_items_stored_two_returned :
  get_items_greater_than_date dev_client "blobs" "k" "20230101" blobs_world
  = (Ok (Some [mkItem "k" "2023-01-03T00:00:00" (blob 400000);
               mkItem "k" "2023-01-02T00:00:00" (blob 400000)]), blobs_world)
  /\ table_items blobs_table !! ("k", "2023-01-01T00:00:00") = Some (blob 400000)
  /\ String.leb "2023-01-01T00:00:00" "2023-01-01T00:00:00" = true.
Proof.
  unfold blobs_world, blobs_table.
  pose proof (byte_length_blob 400000) as Hv. revert Hv.
  generalize (blob 400000). intros v Hv.
  split; [|split; vm_compute; reflexivity].
  set (tb := keystore_table _).
  rewrite (get_items_greater_than_date_query dev_client "blobs" "k" "20230101"
             (mkWorld (<["blobs_dev" := tb]> ∅) ∅ [] []) tb
             (mkdatetime 2023 1 1 0 0 0 0 None));
    [|vm_compute; reflexivity..].
  replace (select tb _ None false)
    with [mkItem "k" "2023-01-03T00:00:00" v; mkItem "k" "2023-01-02T00:00:00" v;
          mkItem "k" "2023-01-01T00:00:00" v] by (vm_compute; reflexivity).
  rewrite (three_blobs_first_page v) by (try exact Hv; vm_compute; discriminate).
  reflexivity.
Qed.

Example get_items_greater_than_date_orders :
  fst (get_items_greater_than_date dev_client "orders" "o1" "20230102" orders_world)
  = Ok (Some [mkItem "o1" "2023-01-02T00:00:00" "150"])
  /\ fst (get_items_greater_than_date dev_client "orders" "o1" "20221231" orders_world)
     = Ok (Some [mkItem "o1" "2023-01-02T00:00:00" "150";
                 mkItem "o1" "2023-01-01T00:00:00" "100"])
  /\ fst (get_items_greater_than_date dev_client "orders" "o1" "20230103" orders_world)
     = Ok None.
Proof. repeat split; vm_compute; reflexivity. Qed.

(** ** Tables: existence, creation, deletion *)

Lemma elem_of_tables_all (w : World) (n : string) :
  n ∈ elements (dom (tables w)) <-> is_Some (tables w !! n).
Proof. rewrite elem_of_elements. apply elem_of_dom. Qed.

Lemma if_table_exists_true (self : DynamoDbDatabase) (table_name : string)
  (w : World) (t : Table) :
  tables w !! get_complete_name self table_name = Some t ->
  if_table_exists self table_name w = (Ok true, w).
Proof.
  intros Ht. unfold if_table_exists, tables_all, bind, ret.
  rewrite bool_decide_eq_true_2; [reflexivity|].
  apply elem_of_tables_all. rewrite Ht. eauto.
Qed.

Lemma if_table_exists_false (self : DynamoDbDatabase) (table_name : string)
  (w : World) :
  tables w !! get_complete_name self table_name = None ->
  if_table_exists self table_name w = (Ok false, w).
Proof.
  intros Ht. unfold if_table_exists, tables_all, bind, ret.
  rewrite bool_decide_eq_false_2; [reflexivity|].
  rewrite elem_of_tables_all, Ht. intros [? ?]. discriminate.
Qed.

Lemma create_table_new (self : DynamoDbDatabase) (table_name : string) (w : World) :
  tables w !! get_complete_name self (lower table_name) = None ->
  create_table self table_name w
  = (Ok (Some (mkTableResource (get_complete_name self (lower table_name)))),
     mkWorld
       (<[get_complete_name self (lower table_name) := keystore_table ∅]> (tables w))
       (files w)
       (log w ++ ["KEYSTORE - Table " +:+ get_complete_name self (lower table_name)
                  +:+ " has been created."])%list
       (stdout w)).
Proof.
  intros Ht. unfold create_table. unfold bind at 1.
  rewrite (if_table_exists_false _ _ _ Ht).
  unfold db_create_table, bind, ret. rewrite Ht. reflexivity.
Qed.

Lemma create_table_existing (self : DynamoDbDatabase) (table_name : string)
  (w : World) (t : Table) :
  tables w !! get_complete_name self (lower table_name) = Some t ->
  create_table self table_name w
  = (Ok None,
     mkWorld (tables w) (files w)
       (log w ++ ["KEYSTORE - Table " +:+ get_complete_name self (lower table_name)
                  +:+ " already exists."])%list
       (stdout w)).
Proof.
  intros Ht. unfold create_table. unfold bind at 1.
  rewrite (if_table_exists_true _ _ _ _ Ht). reflexivity.
Qed.

(** After [create_table] the lower-cased complete name is a table. *)
Lemma create_table_then_exists_lower (self : DynamoDbDatabase) (table_name : string)
  (w : World) :
  fst (if_table_exists self (lower table_name) (snd (create_table self table_name w)))
  = Ok true.
Proof.
  destruct (tables w !! get_complete_name self (lower table_name)) as [t|] eqn:Ht.
  - rewrite (create_table_existing _ _ _ _ Ht). cbn [snd].
    erewrite if_table_exists_true; [reflexivity|exact Ht].
  - rewrite (create_table_new _ _ _ Ht). cbn [snd].
    erewrite if_table_exists_true; [reflexivity|]. cbn [tables].
    apply lookup_insert_eq.
Qed.

Lemma delete_table_existing (self : DynamoDbDatabase) (table_name : string)
  (w : World) (t : Table) :
  tables w !! get_complete_name self table_name = Some t ->
  delete_table self table_name w
  = (Ok tt,
     mkWorld (delete (get_complete_name self table_name) (tables w)) (files w)
       (log w ++ ["KEYSTORE - Table " +:+ get_complete_name self table_name
                  +:+ " has been successfully deleted."])%list
       (stdout w)).
Proof.
  intros Ht. unfold delete_table. unfold bind at 1.
  rewrite (if_table_exists_true _ _ _ _ Ht).
  unfold client_delete_table, bind. rewrite Ht. reflexivity.
Qed.

Lemma delete_table_absent (self : DynamoDbDatabase) (table_name : string)
  (w : World) :
  tables w !! get_complete_name self table_name = None ->
  delete_table self table_name w
  = (Ok tt,
     mkWorld (tables w) (files w)
       (log w ++ ["KEYSTORE - Table " +:+ get_complete_name self table_name
                  +:+ " does not exist."])%list
       (stdout w)).
Proof.
  intros Ht. unfold delete_table. unfold bind at 1.
  rewrite (if_table_exists_false _ _ _ Ht). reflexivity.
Qed.

(** After [delete_table] the complete name is not a table. *)
Lemma delete_table_then_not_exists (self : DynamoDbDatabase) (table_name : string)
  (w : World) :
  fst (delete_table self table_name w) = Ok tt
  /\ fst (if_table_exists self table_name (snd (delete_table self table_name w)))
     = Ok false.
Proof.
  destruct (tables w !! get_complete_name self table_name) as [t|] eqn:Ht.
  - rewrite (delete_table_existing _ _ _ _ Ht). cbn [fst snd].
    split; [reflexivity|].
    erewrite if_table_exists_false; [reflexivity|]. cbn [tables].
    apply lookup_delete_eq.
  - rewrite (delete_table_absent _ _ _ Ht). cbn [fst snd]. split; [reflexivity|].
    erewrite if_table_exists_false; [reflexivity|]. exact Ht.
Qed.

(** C5: [create_table] lower-cases the name and [if_table_exists] does not.
    After [create_table("Orders")] on an empty account the table
    [orders_dev] exists and [if_table_exists("Orders")], which looks for
    [Orders_dev], answers false. *)
Theorem C5_create_mixed_case_then_exists_is_false :
  create_table dev_client "Orders" empty_world
  = (Ok (Some (mkTableResource "orders_dev")),
     mkWorld (<["orders_dev" := keystore_table ∅]> ∅) ∅
       ["KEYSTORE - Table orders_dev has been created."] [])
  /\ fst (if_table_exists dev_client "Orders"
            (snd (create_table dev_client "Orders" empty_world)))
     = Ok false.
Proof. split; vm_compute; reflexivity. Qed.

(** C4: [import_data_from_csv] appends the suffix to the first field of the
    row without looking at it. A row naming [orders_dev] is written to the
    table [orders_dev_dev], where [get_complete_name] leaves [orders_dev]
    as it is. *)
Theorem C4_import_appends_suffix_twice :
  get_complete_name dev_client "orders_dev" = "orders_dev"
  /\ fst (import_data_from_csv dev_client "in.csv" suffixed_csv_world) = Ok tt
  /\ tables (snd (import_data_from_csv dev_client "in.csv" suffixed_csv_world))
     = <["orders_dev_dev" :=
           keystore_table (<[("o1", "2023-01-01T00:00:00") := "100"]> ∅)]> ∅.
Proof. repeat split; vm_compute; reflexivity. Qed.

(** C7: on an account without the table, [put_item_into_table] obtains a
    handle, takes the writing branch and the write raises
    ResourceNotFoundException: nothing is logged and nothing is returned. *)
Theorem C7_put_on_missing_table_raises :
  put_item_into_table dev_client "orders" "o1" "100" june_2024 empty_world
  = (Raise ResourceNotFoundException, empty_world).
Proof. vm_compute. reflexivity. Qed.

(** On an existing table the write stores one item stamped with the clock
    reading in ISO-8601. *)
Example put_item_into_table_orders :
  put_item_into_table dev_client "orders" "o1" "175" june_2024 orders_world
  = (Ok (Some put_item_output),
     mkWorld
       (<["orders_dev" :=
            keystore_table
              (<[("o1", "2024-06-03T14:05:09-05:00") := "175"]>
                 (table_items orders_table))]> ∅)
       ∅ ["KEYSTORE - A new item has been added to the table."] []).
Proof. vm_compute. reflexivity. Qed.

(** ** Operations on a table that does not exist *)

Lemma put_item_into_table_absent (self : DynamoDbDatabase)
  (table_name key value : string) (dt : datetime) (w : World) :
  tables w !! get_complete_name self (lower table_name) = None ->
  put_item_into_table self table_name key value dt w
  = (Raise ResourceNotFoundException, w).
Proof.
  intros Ht.
  unfold put_item_into_table, get_table_resource, truthy, table_put_item.
  unfold bind, ret. cbn [name]. rewrite get_complete_name_idem, Ht. reflexivity.
Qed.

Lemma get_latest_item_value_absent (self : DynamoDbDatabase)
  (table_name key : string) (w : World) :
  tables w !! get_complete_name self table_name = None ->
  get_latest_item_value self table_name key w = (Raise ResourceNotFoundException, w).
Proof.
  intros Ht.
  unfold get_latest_item_value, get_table_resource, truthy, table_query.
  unfold bind, ret. cbn [name]. rewrite get_complete_name_idem, Ht. reflexivity.
Qed.

Lemma get_items_greater_than_date_absent (self : DynamoDbDatabase)
  (table_name key yyyymmdd : string) (dt : datetime) (w : World) :
  strptime_Ymd yyyymmdd = Some dt ->
  tables w !! get_complete_name self table_name = None ->
  get_items_greater_than_date self table_name key yyyymmdd w
  = (Raise ResourceNotFoundException, w).
Proof.
  intros Hd Ht.
  unfold get_items_greater_than_date, get_table_resource, truthy, table_query.
  rewrite Hd. unfold bind, ret. cbn [name].
  rewrite get_complete_name_idem, Ht. reflexivity.
Qed.

Lemma export_data_to_csv_absent (self : DynamoDbDatabase)
  (table_name key path : string) (w : World) :
  tables w !! get_complete_name self table_name = None ->
  export_data_to_csv self table_name key path w = (Raise ResourceNotFoundException, w).
Proof.
  intros Ht.
  unfold export_data_to_csv, get_table_resource, truthy, table_query.
  unfold bind, ret. cbn [name]. rewrite get_complete_name_idem, Ht. reflexivity.
Qed.

Lemma put_item_into_table_never_none (self : DynamoDbDatabase)
  (table_name key value : string) (dt : datetime) (w : World) :
  fst (put_item_into_table self table_name key value dt w) <> Ok None.
Proof.
  destruct (tables w !! get_complete_name self (lower table_name)) as [t|] eqn:Ht.
  - destruct (valid_item (mkItem key (isoformat dt) value)) eqn:Hv.
    + rewrite (put_item_into_table_ok _ _ _ _ _ _ _ Ht Hv). discriminate.
    + rewrite (put_item_into_table_refused _ _ _ _ _ _ _ Ht Hv). discriminate.
  - rewrite (put_item_into_table_absent _ _ _ _ _ _ Ht). discriminate.
Qed.

(** C9: [get_table_resource] makes the handle from the name alone, leaves the
    world untouched, and the handle is true; so on a table that does not
    exist the four operations reach the service call and end with its
    ResourceNotFoundException, the world (and the log) as it was; the write
    never returns nothing. *)
Theorem C9_missing_table_raises_service_error
  (self : DynamoDbDatabase) (table_name key : string) (w : World) :
  (forall n,
      get_table_resource self n w = (Ok (mkTableResource (get_complete_name self n)), w)
      /\ truthy (mkTableResource (get_complete_name self n)) = true)
  /\ (forall value dt,
         fst (put_item_into_table self table_name key value dt w) <> Ok None
         /\ (tables w !! get_complete_name self (lower table_name) = None ->
             put_item_into_table self table_name key value dt w
             = (Raise ResourceNotFoundException, w)))
  /\ (tables w !! get_complete_name self table_name = None ->
      get_latest_item_value self table_name key w = (Raise ResourceNotFoundException, w)
      /\ (forall yyyymmdd dt,
             strptime_Ymd yyyymmdd = Some dt ->
             get_items_greater_than_date self table_name key yyyymmdd w
             = (Raise ResourceNotFoundException, w))
      /\ (forall path,
             export_data_to_csv self table_name key path w
             = (Raise ResourceNotFoundException, w))).
Proof.
  split; [|split].
  - intros n. split; reflexivity.
  - intros value dt. split.
    + apply put_item_into_table_never_none.
    + apply put_item_into_table_absent.
  - intros Ht. split; [|split].
    + apply get_latest_item_value_absent, Ht.
    + intros yyyymmdd dt Hd. exact (get_items_greater_than_date_absent _ _ _ _ _ _ Hd Ht).
    + intros path. apply export_data_to_csv_absent, Ht.
Qed.

Lemma C9_missing_table_raises_service_error_witness :
  put_item_into_table dev_client "orders" "o1" "100" june_2024 empty_world
  = (Raise ResourceNotFoundException, empty_world)
  /\ get_latest_item_value dev_client "orders" "o1" empty_world
     = (Raise ResourceNotFoundException, empty_world)
  /\ get_items_greater_than_date dev_client "orders" "o1" "20230102" empty_world
     = (Raise ResourceNotFoundException, empty_world)
  /\ export_data_to_csv dev_client "orders" "o1" "out.csv" empty_world
     = (Raise ResourceNotFoundException, empty_world).
Proof.
  destruct (C9_missing_table_raises_service_error dev_client "orders" "o1" empty_world)
    as (_ & Hput & Hread).
  assert (Hnone : tables empty_world !! get_complete_name dev_client "orders" = None)
    by (vm_compute; reflexivity).
  destruct (Hread Hnone) as (Hget & Hitems & Hexport).
  split; [|split; [|split]].
  - apply (Hput "100" june_2024). vm_compute. reflexivity.
  - exact Hget.
  - apply (Hitems "20230102" (mkdatetime 2023 1 2 0 0 0 0 None)). vm_compute. reflexivity.
  - apply Hexport.
Defined.

(** ** Mixed-case names *)



Lemma export_empty (self : DynamoDbDatabase) (table_name key path : string)
  (w : World) (t : Table) :
  tables w !! get_complete_name self table_name = Some t ->
  select t (KeyEq "key" key) None false = [] ->
  export_data_to_csv self table_name key path w
  = (Ok tt,
     mkWorld (tables w) (files w)
       (log w ++ ["KEYSTORE - No values found with provided key"])%list (stdout w)).
Proof.
  intros Ht Hsel.
  unfold export_data_to_csv, get_table_resource, truthy, table_query.
  unfold bind, ret. cbn [name]. rewrite get_complete_name_idem, Ht, Hsel.
  reflexivity.
Qed.


Lemma delete_table_tables (self : DynamoDbDatabase) (table_name : string) (w : World) :
  tables (snd (delete_table self table_name w))
  = delete (get_complete_name self table_name) (tables w).
Proof.
  destruct (tables w !! get_complete_name self table_name) as [t|] eqn:Ht.
  - rewrite (delete_table_existing _ _ _ _ Ht). reflexivity.
  - rewrite (delete_table_absent _ _ _ Ht). cbn [snd tables].
    symmetry. apply delete_id, Ht.
Qed.




(** ** Import *)

Lemma bind_ok {A B} (m : M A) (k : A -> M B) (w w' : World) (a : A) :
  m w = (Ok a, w') -> bind m k w = k a w'.
Proof. intros H. unfold bind. rewrite H. reflexivity. Qed.

Lemma bind_raise {A B} (m : M A) (k : A -> M B) (w w' : World) (e : exn) :
  m w = (Raise e, w') -> bind m k w = (Raise e, w').
Proof. intros H. unfold bind. rewrite H. reflexivity. Qed.

Lemma keeps_items_refl (w : World) : keeps_items w w.
Proof. repeat split; auto. Qed.

Lemma keeps_items_log (w : World) (l : list string) :
  keeps_items w (mkWorld (tables w) (files w) l (stdout w)).
Proof. repeat split; auto. Qed.

(** [create_table] always returns, and writes no item. *)
Lemma create_table_keeps_items (self : DynamoDbDatabase) (table_name : string)
  (w : World) :
  exists r w', create_table self table_name w = (Ok r, w') /\ keeps_items w w'.
Proof.
  destruct (tables w !! get_complete_name self (lower table_name)) as [t|] eqn:Ht.
  - rewrite (create_table_existing _ _ _ _ Ht). do 2 eexists. split; [reflexivity|].
    apply keeps_items_log.
  - rewrite (create_table_new _ _ _ Ht). do 2 eexists. split; [reflexivity|].
    split; [reflexivity|]. cbn [tables]. split.
    + intros n t Hn. rewrite lookup_insert_ne; [exact Hn|]. congruence.
    + intros n t Hn. rewrite lookup_insert in Hn. case_decide.
      * right. injection Hn as <-. reflexivity.
      * left. exact Hn.
Qed.

(** The sequence of rows is processed in order: the rows after a prefix are
    reached only when the prefix went through, in the world it left. *)
Lemma import_rows_app (self : DynamoDbDatabase) (pre rest : list (list string)) :
  forall line_count w,
    import_rows self (pre ++ rest) line_count w
    = match import_rows self pre line_count w with
      | (Ok n, w1) => import_rows self rest n w1
      | (Raise e, w1) => (Raise e, w1)
      end.
Proof.
  induction pre as [|row pre IH]; intros line_count w; [reflexivity|].
  cbn [app import_rows]. destruct (readable_row row); [|reflexivity]. unfold bind.
  destruct (import_row self row w) as [[[]|e] w1]; [apply IH|reflexivity].
Qed.

(** A malformed row raises IndexError or ValueError and writes no item. *)
Lemma import_row_malformed (self : DynamoDbDatabase) (row : list string) (w : World) :
  malformed row = true ->
  exists e w',
    import_row self row w = (Raise e, w')
    /\ (e = IndexError \/ e = ValueError)
    /\ keeps_items w w'.
Proof.
  intros Hbad. unfold import_row.
  destruct row as [|r0 row]; [exists IndexError, w; split; [reflexivity|];
                              split; [auto|apply keeps_items_refl]|].
  erewrite bind_ok by reflexivity.
  assert (Hensure : exists w',
    keeps_items w w'
    /\ forall B (k : M B),
        bind (if_table_exists self (r0 +:+ suffix self))
          (fun ex => bind (if negb ex
                           then bind (create_table self (r0 +:+ suffix self))
                                  (fun _ => ret tt)
                           else ret tt) (fun _ => k)) w
        = k w').
  { destruct (tables w !! get_complete_name self (r0 +:+ suffix self)) as [t|] eqn:Ht.
    - exists w. split; [apply keeps_items_refl|]. intros B k.
      erewrite bind_ok by (eapply if_table_exists_true; exact Ht). reflexivity.
    - destruct (create_table_keeps_items self (r0 +:+ suffix self) w)
        as (r & w' & Hrun & Hkeep).
      exists w'. split; [exact Hkeep|]. intros B k.
      erewrite bind_ok by (eapply if_table_exists_false; exact Ht).
      cbn [negb]. erewrite bind_ok; [reflexivity|].
      erewrite bind_ok by exact Hrun. reflexivity. }
  destruct Hensure as (w' & Hkeep & Hrun). rewrite Hrun.
  unfold malformed in Hbad.
  destruct row as [|r1 [|r2 [|r3 row]]];
    try (exists IndexError, w'; split; [reflexivity|]; split; [auto|exact Hkeep]).
  cbn in Hbad. apply andb_true_iff in Hbad as [_ Hbad].
  destruct (strptime_Ymd r3) eqn:Hd; [discriminate|].
  exists ValueError, w'. split; [|split; [auto|exact Hkeep]].
  do 3 (erewrite bind_ok by reflexivity). rewrite Hd. reflexivity.
Qed.

(** C8 (amended): rows are processed in order; at the first row without a
    fourth field, or whose fourth field is an ASCII string that the
    [%Y%m%d] parser rejects, the import ends with IndexError or ValueError,
    or with the reader's own error when the row has a field above its
    limit, in the world that the rows before it and the failed attempt at
    this row left: the rows after it have no part in it, every table keeps
    the items written for the rows before, and no item is written for the
    bad row. *)
Theorem C8_import_aborts_at_malformed_row
  (self : DynamoDbDatabase) (path : string) (pre post : list (list string))
  (bad : list string) (writable : bool) (w w1 : World) (n1 : nat) :
  path <> "" ->
  files w !! path = Some (CsvFile (pre ++ bad :: post)%list writable) ->
  import_rows self pre 0 w = (Ok n1, w1) ->
  malformed bad = true ->
  exists e w2,
    import_data_from_csv self path w = (Raise e, w2)
    /\ (if readable_row bad
        then (e = IndexError \/ e = ValueError) /\ import_row self bad w1 = (Raise e, w2)
        else e = CsvError /\ w2 = w1)
    /\ keeps_items w1 w2.
Proof.
  intros Hpath Hfile Hpre Hbad.
  unfold import_data_from_csv.
  erewrite bind_ok by (apply (csv_read_ok _ _ writable); [exact Hpath | exact Hfile]).
  destruct (readable_row bad) eqn:Hr.
  - destruct (import_row_malformed self bad w1 Hbad) as (e & w2 & Hrow & He & Hkeep).
    exists e, w2. split; [|auto].
    apply bind_raise. rewrite import_rows_app, Hpre. cbn [import_rows]. rewrite Hr.
    apply bind_raise. exact Hrow.
  - exists CsvError, w1. split; [|split; [auto|apply keeps_items_refl]].
    apply bind_raise. rewrite import_rows_app, Hpre. cbn [import_rows]. rewrite Hr.
    reflexivity.
Qed.

Lemma C8_import_aborts_at_malformed_row_witness :
  exists e w2,
    import_data_from_csv dev_client "in.csv" short_row_world = (Raise e, w2)
    /\ ((e = IndexError \/ e = ValueError)
        /\ import_row dev_client ["orders"; "o1"; "150"]
             (snd (import_rows dev_client [["orders"; "o1"; "100"; "20230101"]] 0
                     short_row_world))
           = (Raise e, w2))
    /\ keeps_items
         (snd (import_rows dev_client [["orders"; "o1"; "100"; "20230101"]] 0
                 short_row_world))
         w2.
Proof.
  apply (C8_import_aborts_at_malformed_row dev_client "in.csv"
           [["orders"; "o1"; "100"; "20230101"]]
           [["orders"; "o1"; "200"; "20230103"]]
           ["orders"; "o1"; "150"] true short_row_world _ 1%nat).
  - discriminate.
  - vm_compute. reflexivity.
  - vm_compute. reflexivity.
  - vm_compute. reflexivity.
Defined.

(** What the import of the file with the short row leaves: the first row is
    stored, the third is not. *)
Example import_short_row :
  fst (import_data_from_csv dev_client "in.csv" short_row_world) = Raise IndexError
  /\ tables (snd (import_data_from_csv dev_client "in.csv" short_row_world))
     = <["orders_dev" :=
           keystore_table (<[("o1", "2023-01-01T00:00:00") := "100"]> ∅)]> ∅.
Proof. split; vm_compute; reflexivity. Qed.

(** C8, as stated, fails on a row with a fifth field: the row has the wrong
    number of columns, yet it is imported from its first four fields and the
    row after it is imported too. *)
Lemma C8_row_with_five_fields_is_imported :
  files five_fields_world !! "in.csv"
  = Some (CsvFile [["orders"; "o1"; "100"; "20230101"; "extra"];
                   ["orders"; "o1"; "150"; "20230102"]] true)
  /\ length ["orders"; "o1"; "100"; "20230101"; "extra"] <> 4%nat
  /\ fst (import_data_from_csv dev_client "in.csv" five_fields_world) = Ok tt
  /\ tables (snd (import_data_from_csv dev_client "in.csv" five_fields_world))
     = <["orders_dev" :=
           keystore_table
             (<[("o1", "2023-01-01T00:00:00") := "100"]>
                (<[("o1", "2023-01-02T00:00:00") := "150"]> ∅))]> ∅.
Proof.
  split; [|split; [|split]]; try (vm_compute; reflexivity).
  cbn [length]. lia.
Qed.

(** The round trip of the specification: import two rows, read the latest. *)
Example import_then_latest :
  fst (get_latest_item_value dev_client "orders" "o1"
         (snd (import_data_from_csv dev_client "in.csv"
                 (mkWorld ∅
                    (<["in.csv" := CsvFile [["orders"; "o1"; "100"; "20230101"];
                                            ["orders"; "o1"; "150"; "20230102"]]
                                     true]> ∅) [] []))))
  = Ok (Some "150").
Proof. vm_compute. reflexivity. Qed.

(** The parser takes months and days written with one digit. *)
Example strptime_Ymd_one_digit :
  isoformat <$> strptime_Ymd "2023115" = Some "2023-11-05T00:00:00"
  /\ strptime_Ymd "20230230" = None
  /\ strptime_Ymd "2023-01-02" = None.
Proof. repeat split; vm_compute; reflexivity. Qed.

(** * Further properties of the operations *)

(** ** Listing, creating and deleting tables *)

Lemma print_tables_filter (self : DynamoDbDatabase) (existing_tables : list string) :
  forall w,
    print_tables self existing_tables w
    = (Ok tt,
       mkWorld (tables w) (files w) (log w)
         (stdout w ++ List.filter (fun t => endswith t (suffix self)) existing_tables)).
Proof.
  induction existing_tables as [|table rest IH]; intros w; cbn [print_tables List.filter].
  - unfold ret. rewrite app_nil_r. destruct w; reflexivity.
  - destruct (endswith table (suffix self)).
    + erewrite bind_ok by reflexivity. rewrite IH. cbn [tables files log stdout].
      rewrite <- app_assoc. reflexivity.
    + erewrite bind_ok by reflexivity. apply IH.
Qed.

(** X1: [list_all_existing_tables] never fails; it logs its heading and prints
    the names of the tables of the account that end with the client's suffix,
    each once and no other line, and leaves the tables and the files alone. *)
Theorem X1_list_all_existing_tables_prints_suffixed_names
  (self : DynamoDbDatabase) (w : World) :
  exists printed : list string,
    list_all_existing_tables self w
    = (Ok tt,
       mkWorld (tables w) (files w)
         (log w ++ ["KEYSTORE - All existing Tables:"])%list
         (stdout w ++ printed)%list)
    /\ NoDup printed
    /\ (forall n, n ∈ printed
                  <-> is_Some (tables w !! n) /\ endswith n (suffix self) = true).
Proof.
  exists (List.filter (fun t => endswith t (suffix self)) (elements (dom (tables w)))).
  split; [|split].
  - unfold list_all_existing_tables.
    erewrite bind_ok by reflexivity. erewrite bind_ok by reflexivity.
    rewrite print_tables_filter. reflexivity.
  - apply NoDup_ListNoDup, List.NoDup_filter, NoDup_ListNoDup, NoDup_elements.
  - intros n. rewrite list_elem_of_In, filter_In, <- list_elem_of_In.
    rewrite elem_of_tables_all. reflexivity.
Qed.

(** X2: for an ASCII name [create_table] never fails and destroys nothing:
    every table that existed keeps its items, the lower-cased complete name
    is a table afterwards, a handle is returned exactly when the table was
    missing, and a second call returns nothing and leaves the tables as the
    first left them. *)
Theorem X2_create_table_is_idempotent_and_keeps_items
  (self : DynamoDbDatabase) (table_name : string) (w : World) :
  is_ascii table_name = true ->
  exists r w1,
    create_table self table_name w = (Ok r, w1)
    /\ keeps_items w w1
    /\ is_Some (tables w1 !! get_complete_name self (lower table_name))
    /\ (r = None <-> is_Some (tables w !! get_complete_name self (lower table_name)))
    /\ exists w2,
         create_table self table_name w1 = (Ok None, w2) /\ tables w2 = tables w1.
Proof.
  intros _.
  destruct (tables w !! get_complete_name self (lower table_name)) as [t|] eqn:Ht.
  - rewrite (create_table_existing _ _ _ _ Ht). do 2 eexists.
    split; [reflexivity|]. split; [apply keeps_items_log|].
    cbn [tables]. rewrite Ht. split; [eauto|]. split; [split; eauto|].
    eexists. split; [rewrite (create_table_existing _ _ _ t) by exact Ht|];
      reflexivity.
  - rewrite (create_table_new _ _ _ Ht). do 2 eexists.
    split; [reflexivity|]. split; [|split; [|split]].
    + split; [reflexivity|]. cbn [tables]. split.
      * intros n t Hn. rewrite lookup_insert_ne; [exact Hn|]. congruence.
      * intros n t Hn. rewrite lookup_insert in Hn. case_decide.
        -- right. injection Hn as <-. reflexivity.
        -- left. exact Hn.
    + cbn [tables]. rewrite lookup_insert_eq. eauto.
    + split; [discriminate|]. intros [? ?]. discriminate.
    + eexists.
      split; [rewrite (create_table_existing _ _ _ (keystore_table ∅))
                by (cbn [tables]; apply lookup_insert_eq)|]; reflexivity.
Qed.

Lemma X2_create_table_is_idempotent_and_keeps_items_witness :
  exists r w1,
    create_table dev_client "Orders" orders_world = (Ok r, w1)
    /\ keeps_items orders_world w1
    /\ is_Some (tables w1 !! get_complete_name dev_client (lower "Orders"))
    /\ (r = None
        <-> is_Some (tables orders_world !! get_complete_name dev_client (lower "Orders")))
    /\ exists w2,
         create_table dev_client "Orders" w1 = (Ok None, w2) /\ tables w2 = tables w1.
Proof.
  apply (X2_create_table_is_idempotent_and_keeps_items dev_client "Orders" orders_world).
  reflexivity.
Defined.

(** X3: for an ASCII name without a capital letter, [if_table_exists]
    answers true right after [create_table], whatever the account held
    before. *)
Theorem X3_create_table_then_exists_for_lower_case_name
  (self : DynamoDbDatabase) (table_name : string) (w : World) :
  is_ascii table_name = true ->
  lower table_name = table_name ->
  if_table_exists self table_name (snd (create_table self table_name w))
  = (Ok true, snd (create_table self table_name w)).
Proof.
  intros _ Hlow.
  destruct (tables w !! get_complete_name self (lower table_name)) as [t|] eqn:Ht.
  - rewrite (create_table_existing _ _ _ _ Ht). cbn [snd].
    apply (if_table_exists_true _ _ _ t). cbn [tables]. rewrite <- Hlow at 1. exact Ht.
  - rewrite (create_table_new _ _ _ Ht). cbn [snd].
    apply (if_table_exists_true _ _ _ (keystore_table ∅)). cbn [tables].
    rewrite Hlow. apply lookup_insert_eq.
Qed.

Lemma X3_create_table_then_exists_for_lower_case_name_witness :
  if_table_exists dev_client "orders" (snd (create_table dev_client "orders" empty_world))
  = (Ok true, snd (create_table dev_client "orders" empty_world)).
Proof.
  apply (X3_create_table_then_exists_for_lower_case_name dev_client "orders" empty_world).
  - reflexivity.
  - reflexivity.
Defined.

(** X4: [delete_table] never fails; afterwards [if_table_exists] answers false
    for the same name, the table under the complete name is gone, and every
    other table and every file is as before. *)
Theorem X4_delete_table_removes_only_the_named_table
  (self : DynamoDbDatabase) (table_name : string) (w : World) :
  fst (delete_table self table_name w) = Ok tt
  /\ fst (if_table_exists self table_name (snd (delete_table self table_name w)))
     = Ok false
  /\ tables (snd (delete_table self table_name w))
     = delete (get_complete_name self table_name) (tables w)
  /\ (forall n, n <> get_complete_name self table_name ->
                tables (snd (delete_table self table_name w)) !! n = tables w !! n)
  /\ files (snd (delete_table self table_name w)) = files w.
Proof.
  destruct (delete_table_then_not_exists self table_name w) as [Hok Hgone].
  pose proof (delete_table_tables self table_name w) as Htab.
  split; [exact Hok|]. split; [exact Hgone|]. split; [exact Htab|]. split.
  - intros n Hn. rewrite Htab. apply lookup_delete_ne. congruence.
  - destruct (tables w !! get_complete_name self table_name) as [t|] eqn:Ht.
    + rewrite (delete_table_existing _ _ _ _ Ht). reflexivity.
    + rewrite (delete_table_absent _ _ _ Ht). reflexivity.
Qed.

(** X5: for an ASCII name without a capital letter that is not yet a table,
    [create_table] followed by [delete_table] gives back the tables the
    account had. *)
Theorem X5_create_then_delete_restores_tables
  (self : DynamoDbDatabase) (table_name : string) (w : World) :
  is_ascii table_name = true ->
  lower table_name = table_name ->
  tables w !! get_complete_name self table_name = None ->
  tables (snd (delete_table self table_name (snd (create_table self table_name w))))
  = tables w.
Proof.
  intros _ Hlow Hnone. rewrite delete_table_tables.
  rewrite create_table_new by (rewrite Hlow; exact Hnone).
  cbn [snd tables]. rewrite Hlow. apply delete_insert_id. exact Hnone.
Qed.

Lemma X5_create_then_delete_restores_tables_witness :
  tables (snd (delete_table dev_client "prices"
                 (snd (create_table dev_client "prices" orders_world))))
  = tables orders_world.
Proof.
  apply (X5_create_then_delete_restores_tables dev_client "prices" orders_world).
  - reflexivity.
  - reflexivity.
  - vm_compute. reflexivity.
Defined.

(** ** Writing and reading items *)

(** X6: on an existing table with an ASCII name, [put_item_into_table] of
    an item within the limits of the service (a key of 1 to 2048 bytes, 400
    KB in all) returns the acknowledgment and changes one thing: the value
    stored at (key, ISO-8601 string of the clock reading) in the table under
    the lower-cased complete name. Every other pair of that table, its
    schema, every other table and every file are as before.  An item beyond
    the limits is refused with ValidationException and nothing changes. *)
Theorem X6_put_item_changes_one_pair_of_one_table
  (self : DynamoDbDatabase) (table_name key value : string) (dt : datetime)
  (w : World) (tb : Table) :
  is_ascii table_name = true ->
  tables w !! get_complete_name self (lower table_name) = Some tb ->
  (valid_item (mkItem key (isoformat dt) value) = false ->
   put_item_into_table self table_name key value dt w = (Raise ValidationException, w))
  /\ (valid_item (mkItem key (isoformat dt) value) = true ->
  exists w1 tb1,
    put_item_into_table self table_name key value dt w = (Ok (Some put_item_output), w1)
    /\ tables w1 !! get_complete_name self (lower table_name) = Some tb1
    /\ table_items tb1 !! (key, isoformat dt) = Some value
    /\ (forall p, p <> (key, isoformat dt) -> table_items tb1 !! p = table_items tb !! p)
    /\ KeySchema tb1 = KeySchema tb
    /\ (forall n, n <> get_complete_name self (lower table_name) ->
                  tables w1 !! n = tables w !! n)
    /\ files w1 = files w).
Proof.
  intros _ Ht. split; [apply (put_item_into_table_refused _ _ _ _ _ _ tb Ht)|].
  intros Hvalid.
  do 2 eexists. split; [apply put_item_into_table_ok; [exact Ht | exact Hvalid]|].
  cbn [tables files]. split; [apply lookup_insert_eq|].
  cbn [with_items table_items KeySchema]. split; [apply lookup_insert_eq|].
  split; [|split; [reflexivity|split; [|reflexivity]]].
  - intros p Hp. apply lookup_insert_ne. congruence.
  - intros n Hn. apply lookup_insert_ne. congruence.
Qed.

Lemma X6_put_item_changes_one_pair_of_one_table_witness :
  put_item_into_table dev_client "orders" "" "175" june_2024 orders_world
  = (Raise ValidationException, orders_world)
  /\ exists w1 tb1,
    put_item_into_table dev_client "orders" "o1" "175" june_2024 orders_world
    = (Ok (Some put_item_output), w1)
    /\ tables w1 !! get_complete_name dev_client (lower "orders") = Some tb1
    /\ table_items tb1 !! ("o1", isoformat june_2024) = Some "175"
    /\ (forall p, p <> ("o1", isoformat june_2024) ->
                  table_items tb1 !! p = table_items orders_table !! p)
    /\ KeySchema tb1 = KeySchema orders_table
    /\ (forall n, n <> get_complete_name dev_client (lower "orders") ->
                  tables w1 !! n = tables orders_world !! n)
    /\ files w1 = files orders_world.
Proof.
  split.
  - apply (X6_put_item_changes_one_pair_of_one_table
             dev_client "orders" "" "175" june_2024 orders_world orders_table);
      vm_compute; reflexivity.
  - apply (X6_put_item_changes_one_pair_of_one_table
             dev_client "orders" "o1" "175" june_2024 orders_world orders_table);
      vm_compute; reflexivity.
Defined.

Lemma select_key_nil (t : Table) (key : string) :
  select t (KeyEq "key" key) None false = []
  <-> forall d, table_items t !! (key, d) = None.
Proof.
  split.
  - intros Hnil d. destruct (table_items t !! (key, d)) as [v|] eqn:Hd; [|reflexivity].
    assert (Hin : mkItem key d v ∈ select t (KeyEq "key" key) None false).
    { apply elem_of_select_all. simpl. rewrite String.eqb_refl. auto. }
    rewrite Hnil in Hin. apply elem_of_nil in Hin. contradiction.
  - intros Hnone.
    destruct (select t (KeyEq "key" key) None false) as [|first rest] eqn:Hsel;
      [reflexivity|].
    assert (Hin : first ∈ select t (KeyEq "key" key) None false)
      by (rewrite Hsel; apply elem_of_cons; left; reflexivity).
    apply elem_of_select_all in Hin as [Hstored Hkey].
    rewrite holds_key_eq in Hkey. apply String.eqb_eq in Hkey.
    rewrite Hkey, Hnone in Hstored. discriminate.
Qed.

(** X7: on an existing table [get_latest_item_value] never fails; it returns
    nothing exactly when no item is stored under the key, and a value it
    returns is the value of an item stored under the key. *)
Theorem X7_get_latest_is_none_iff_key_has_no_item
  (self : DynamoDbDatabase) (table_name key : string) (w : World) (tb : Table) :
  tables w !! get_complete_name self table_name = Some tb ->
  (exists r, fst (get_latest_item_value self table_name key w) = Ok r)
  /\ (fst (get_latest_item_value self table_name key w) = Ok None
      <-> forall d, table_items tb !! (key, d) = None)
  /\ (forall v, fst (get_latest_item_value self table_name key w) = Ok (Some v) ->
                exists d, table_items tb !! (key, d) = Some v).
Proof.
  intros Ht. rewrite (get_latest_item_value_query _ _ _ _ _ Ht).
  rewrite <- select_key_nil.
  destruct (select tb (KeyEq "key" key) None false) as [|first rest] eqn:Hsel;
    cbn [fst].
  - split; [eauto|]. split; [split; reflexivity|]. discriminate.
  - split; [eauto|]. split; [split; discriminate|].
    intros v Hv. injection Hv as <-.
    assert (Hin : first ∈ select tb (KeyEq "key" key) None false)
      by (rewrite Hsel; apply elem_of_cons; left; reflexivity).
    apply elem_of_select_all in Hin as [Hstored Hkey].
    rewrite holds_key_eq in Hkey. apply String.eqb_eq in Hkey.
    rewrite Hkey in Hstored. eauto.
Qed.

Lemma X7_get_latest_is_none_iff_key_has_no_item_witness :
  (exists r, fst (get_latest_item_value dev_client "orders" "o2" orders_world) = Ok r)
  /\ (fst (get_latest_item_value dev_client "orders" "o2" orders_world) = Ok None
      <-> forall d, table_items orders_table !! ("o2", d) = None)
  /\ (forall v, fst (get_latest_item_value dev_client "orders" "o2" orders_world)
                = Ok (Some v) ->
                exists d, table_items orders_table !! ("o2", d) = Some v).
Proof.
  apply (X7_get_latest_is_none_iff_key_has_no_item
           dev_client "orders" "o2" orders_world orders_table).
  vm_compute. reflexivity.
Defined.

Lemma get_items_greater_than_date_bad_date (self : DynamoDbDatabase)
  (table_name key yyyymmdd : string) (w : World) :
  strptime_Ymd yyyymmdd = None ->
  get_items_greater_than_date self table_name key yyyymmdd w = (Raise ValueError, w).
Proof.
  intros Hd. unfold get_items_greater_than_date. rewrite Hd. reflexivity.
Qed.

(** The three ways [get_items_greater_than_date] can end. *)
Lemma get_items_greater_than_date_cases (self : DynamoDbDatabase)
  (table_name key yyyymmdd : string) (w : World) :
  (strptime_Ymd yyyymmdd = None
   /\ get_items_greater_than_date self table_name key yyyymmdd w = (Raise ValueError, w))
  \/ (strptime_Ymd yyyymmdd <> None
      /\ tables w !! get_complete_name self table_name = None
      /\ get_items_greater_than_date self table_name key yyyymmdd w
         = (Raise ResourceNotFoundException, w))
  \/ (exists dt tb,
         strptime_Ymd yyyymmdd = Some dt
         /\ tables w !! get_complete_name self table_name = Some tb
         /\ get_items_greater_than_date self table_name key yyyymmdd w
            = match select tb (CondAnd (KeyEq "key" key)
                                 (KeyGte "datetime" (isoformat dt))) None false with
              | [] =>
                  (Ok None,
                   mkWorld (tables w) (files w)
                     (log w ++ ["KEYSTORE - No values were found."])%list (stdout w))
              | first :: rest => (Ok (Some (first_page (first :: rest))), w)
              end).
Proof.
  destruct (strptime_Ymd yyyymmdd) as [dt|] eqn:Hd.
  - destruct (tables w !! get_complete_name self table_name) as [tb|] eqn:Ht.
    + right. right. exists dt, tb. split; [reflexivity|]. split; [reflexivity|].
      apply get_items_greater_than_date_query; assumption.
    + right. left. split; [discriminate|]. split; [reflexivity|].
      exact (get_items_greater_than_date_absent _ _ _ _ _ _ Hd Ht).
  - left. split; [reflexivity|]. apply get_items_greater_than_date_bad_date, Hd.
Qed.

(** X9: [get_items_greater_than_date] parses the date before it reaches the
    service: for a date string in ASCII it ends with ValueError exactly when
    the parser rejects the date, with ResourceNotFoundException exactly when
    the date parses and the table is missing, in both cases in the world it
    started from; and it never returns an empty list. *)
Theorem X9_get_items_greater_than_date_outcomes
  (self : DynamoDbDatabase) (table_name key yyyymmdd : string) (w : World) :
  is_ascii yyyymmdd = true ->
  (fst (get_items_greater_than_date self table_name key yyyymmdd w) = Raise ValueError
   <-> strptime_Ymd yyyymmdd = None)
  /\ (fst (get_items_greater_than_date self table_name key yyyymmdd w)
      = Raise ResourceNotFoundException
      <-> strptime_Ymd yyyymmdd <> None
          /\ tables w !! get_complete_name self table_name = None)
  /\ (forall e,
         fst (get_items_greater_than_date self table_name key yyyymmdd w) = Raise e ->
         snd (get_items_greater_than_date self table_name key yyyymmdd w) = w)
  /\ fst (get_items_greater_than_date self table_name key yyyymmdd w) <> Ok (Some []).
Proof.
  intros _.
  destruct (get_items_greater_than_date_cases self table_name key yyyymmdd w)
    as [(Hd & ->) | [(Hd & Ht & ->) | (dt & tb & Hd & Ht & ->)]]; cbn [fst snd].
  - split; [split; auto|]. split; [split; [discriminate|]|].
    + intros [Hne _]. contradiction.
    + split; [reflexivity|discriminate].
  - split; [split; [discriminate|contradiction]|].
    split; [split; auto|]. split; [reflexivity|discriminate].
  - rewrite Hd, Ht.
    destruct (select tb _ None false) as [|first rest]; cbn [fst snd];
      (split; [split; discriminate|]);
      (split; [split; [discriminate|intros [_ ?]; discriminate]|]);
      (split; [discriminate|discriminate]).
Qed.

Lemma X9_get_items_greater_than_date_outcomes_witness :
  (fst (get_items_greater_than_date dev_client "orders" "o1" "2023-01-02" orders_world)
   = Raise ValueError
   <-> strptime_Ymd "2023-01-02" = None)
  /\ (fst (get_items_greater_than_date dev_client "orders" "o1" "2023-01-02" orders_world)
      = Raise ResourceNotFoundException
      <-> strptime_Ymd "2023-01-02" <> None
          /\ tables orders_world !! get_complete_name dev_client "orders" = None)
  /\ (forall e,
         fst (get_items_greater_than_date dev_client "orders" "o1" "2023-01-02"
                orders_world) = Raise e ->
         snd (get_items_greater_than_date dev_client "orders" "o1" "2023-01-02"
                orders_world) = orders_world)
  /\ fst (get_items_greater_than_date dev_client "orders" "o1" "2023-01-02" orders_world)
     <> Ok (Some []).
Proof.
  apply (X9_get_items_greater_than_date_outcomes
           dev_client "orders" "o1" "2023-01-02" orders_world).
  reflexivity.
Defined.

(** What [export_data_to_csv] does to the tables and to the other files. *)
Lemma export_data_to_csv_frame (self : DynamoDbDatabase)
  (table_name key path : string) (w : World) :
  tables (snd (export_data_to_csv self table_name key path w)) = tables w
  /\ forall p, p <> path ->
               files (snd (export_data_to_csv self table_name key path w)) !! p
               = files w !! p.
Proof.
  destruct (tables w !! get_complete_name self table_name) as [tb|] eqn:Ht.
  - destruct (select tb (KeyEq "key" key) None false) as [|first rest] eqn:Hsel.
    + rewrite (export_empty _ _ _ _ _ _ Ht Hsel). split; reflexivity.
    + rewrite (export_nonempty _ _ _ _ _ _ _ _ Ht Hsel).
      unfold bind, ret, log_info.
      match goal with
      | |- context [csv_write ?p ?h ?d w] =>
          pose proof (csv_write_frame p h d w) as (Ht' & _ & _ & Hf' & _);
          destruct (csv_write p h d w) as [[[]|e] w']
      end; cbn [fst snd tables files] in *; (split; [exact Ht' | exact Hf']).
  - rewrite (export_data_to_csv_absent _ _ _ _ _ Ht). split; reflexivity.
Qed.

(** X8: the read operations write nothing to the service: whatever the
    account holds and however they end, [if_table_exists],
    [get_latest_item_value], [get_items_greater_than_date] and
    [list_all_existing_tables] leave every table and every file as they
    were, and [export_data_to_csv] leaves every table and every file but
    the one it is asked to write. *)
Theorem X8_reads_leave_tables_and_files_unchanged
  (self : DynamoDbDatabase) (table_name key : string) (w : World) :
  snd (if_table_exists self table_name w) = w
  /\ (tables (snd (get_latest_item_value self table_name key w)) = tables w
      /\ files (snd (get_latest_item_value self table_name key w)) = files w)
  /\ (forall yyyymmdd,
         tables (snd (get_items_greater_than_date self table_name key yyyymmdd w))
         = tables w
         /\ files (snd (get_items_greater_than_date self table_name key yyyymmdd w))
            = files w)
  /\ (tables (snd (list_all_existing_tables self w)) = tables w
      /\ files (snd (list_all_existing_tables self w)) = files w)
  /\ (forall path,
         tables (snd (export_data_to_csv self table_name key path w)) = tables w
         /\ forall p, p <> path ->
                      files (snd (export_data_to_csv self table_name key path w)) !! p
                      = files w !! p).
Proof.
  split; [reflexivity|]. split; [|split; [|split]].
  - destruct (tables w !! get_complete_name self table_name) as [tb|] eqn:Ht.
    + rewrite (get_latest_item_value_query _ _ _ _ _ Ht).
      destruct (select tb _ None false); split; reflexivity.
    + rewrite (get_latest_item_value_absent _ _ _ _ Ht). split; reflexivity.
  - intros yyyymmdd.
    destruct (get_items_greater_than_date_cases self table_name key yyyymmdd w)
      as [(Hd & ->) | [(Hd & Ht & ->) | (dt & tb & Hd & Ht & ->)]];
      try (split; reflexivity).
    destruct (select tb _ None false); split; reflexivity.
  - unfold list_all_existing_tables.
    erewrite bind_ok by reflexivity. erewrite bind_ok by reflexivity.
    rewrite print_tables_filter. split; reflexivity.
  - intros path. apply export_data_to_csv_frame.
Qed.

(** X10: when [get_items_greater_than_date] returns items, the first of them
    is the latest item of the key: its value is what
    [get_latest_item_value] returns for the same table and key. *)
Theorem X10_first_item_from_date_is_the_latest
  (self : DynamoDbDatabase) (table_name key yyyymmdd : string) (w : World)
  (items : list Item) :
  fst (get_items_greater_than_date self table_name key yyyymmdd w) = Ok (Some items) ->
  exists first rest,
    items = first :: rest
    /\ get_latest_item_value self table_name key w = (Ok (Some (item_value first)), w).
Proof.
  intros Hres.
  destruct (get_items_greater_than_date_cases self table_name key yyyymmdd w)
    as [(Hd & E) | [(Hd & Ht & E) | (dt & tb & Hd & Ht & E)]];
    rewrite E in Hres; try discriminate.
  set (cond := CondAnd (KeyEq "key" key) (KeyGte "datetime" (isoformat dt))) in *.
  destruct (select tb cond None false) as [|first rest] eqn:Hsel; [discriminate|].
  injection Hres as <-. exists first, (page_of (page_bytes - item_size first) rest).
  split; [reflexivity|].
  assert (Hfirst : first ∈ select tb cond None false)
    by (rewrite Hsel; apply elem_of_cons; left; reflexivity).
  apply elem_of_select_all in Hfirst as [Hstored Hcond].
  change (holds cond first)
    with (String.eqb (item_key first) key
          && String.leb (isoformat dt) (item_datetime first)) in Hcond.
  apply andb_true_iff in Hcond as [Hkey Hfloor]. apply String.eqb_eq in Hkey.
  rewrite Hkey in Hstored.
  apply (get_latest_item_value_greatest _ _ _ _ tb (item_datetime first));
    [exact Ht|exact Hstored|].
  intros d' v' Hd'.
  destruct (String.leb_total d' (item_datetime first)) as [Hle|Hge]; [exact Hle|].
  assert (Hin : mkItem key d' v' ∈ select tb cond None false).
  { apply elem_of_select_all. split; [exact Hd'|].
    change (holds cond (mkItem key d' v'))
      with (String.eqb key key && String.leb (isoformat dt) d').
    rewrite String.eqb_refl. exact (string_leb_trans _ _ _ Hfloor Hge). }
  exact (select_head_greatest _ _ _ _ Hsel _ Hin).
Qed.

Lemma X10_first_item_from_date_is_the_latest_witness :
  exists first rest,
    [mkItem "o1" "2023-01-02T00:00:00" "150"; mkItem "o1" "2023-01-01T00:00:00" "100"]
    = first :: rest
    /\ get_latest_item_value dev_client "orders" "o1" orders_world
       = (Ok (Some (item_value first)), orders_world).
Proof.
  apply (X10_first_item_from_date_is_the_latest
           dev_client "orders" "o1" "20221231" orders_world).
  vm_compute. reflexivity.
Defined.

(** X11: on an existing table with no item under the key,
    [export_data_to_csv] writes no file, not even the header: it logs that
    nothing was found and leaves tables and files as they were. *)
Theorem X11_export_without_items_writes_no_file
  (self : DynamoDbDatabase) (table_name key path : string) (w : World) (tb : Table) :
  tables w !! get_complete_name self table_name = Some tb ->
  (forall d, table_items tb !! (key, d) = None) ->
  export_data_to_csv self table_name key path w
  = (Ok tt,
     mkWorld (tables w) (files w)
       (log w ++ ["KEYSTORE - No values found with provided key"])%list (stdout w)).
Proof.
  intros Ht Hnone. apply (export_empty _ _ _ _ _ tb Ht).
  apply select_key_nil. exact Hnone.
Qed.

Lemma X11_export_without_items_writes_no_file_witness :
  export_data_to_csv dev_client "orders" "o2" "out.csv" orders_world
  = (Ok tt,
     mkWorld (tables orders_world) (files orders_world)
       (log orders_world ++ ["KEYSTORE - No values found with provided key"])%list
       (stdout orders_world)).
Proof.
  apply (X11_export_without_items_writes_no_file
           dev_client "orders" "o2" "out.csv" orders_world orders_table).
  - vm_compute. reflexivity.
  - intros d. unfold orders_table, keystore_table. cbn [table_items].
    rewrite !lookup_insert_ne by discriminate. apply lookup_empty.
Defined.

(** ** The import loop, row by row *)

Lemma get_complete_name_suffixed (self : DynamoDbDatabase) (r0 : string) :
  get_complete_name self (r0 +:+ suffix self) = r0 +:+ suffix self.
Proof. unfold get_complete_name. rewrite endswith_app. reflexivity. Qed.

Lemma ensure_table_run (self : DynamoDbDatabase) (r0 : string) (w : World) :
  exists w',
    ensured self r0 w w'
    /\ forall B (k : M B),
        bind (if_table_exists self (r0 +:+ suffix self))
          (fun ex => bind (if negb ex
                           then bind (create_table self (r0 +:+ suffix self))
                                  (fun _ => ret tt)
                           else ret tt) (fun _ => k)) w
        = k w'.
Proof.
  destruct (tables w !! (r0 +:+ suffix self)) as [t|] eqn:Ht.
  - exists w. split.
    + split; [reflexivity|]. left. rewrite Ht. split; [eauto|reflexivity].
    + intros B k.
      erewrite bind_ok
        by (eapply if_table_exists_true; rewrite get_complete_name_suffixed; exact Ht).
      reflexivity.
  - exists (snd (create_table self (r0 +:+ suffix self) w)). split.
    + destruct (tables w !! get_complete_name self (lower (r0 +:+ suffix self)))
        as [t|] eqn:Hl.
      * rewrite (create_table_existing _ _ _ _ Hl). cbn [snd].
        split; [reflexivity|]. left. split; [eauto|reflexivity].
      * rewrite (create_table_new _ _ _ Hl). cbn [snd].
        split; [reflexivity|]. right. split; [exact Ht|]. split; [exact Hl|reflexivity].
    + intros B k.
      erewrite bind_ok
        by (eapply if_table_exists_false; rewrite get_complete_name_suffixed; exact Ht).
      cbn [negb].
      destruct (create_table_keeps_items self (r0 +:+ suffix self) w)
        as (r & w' & Hrun & _).
      rewrite Hrun. cbn [snd]. erewrite bind_ok; [reflexivity|].
      erewrite bind_ok by exact Hrun. reflexivity.
Qed.

(** Every way the body of the import loop can end. *)
Lemma import_row_cases (self : DynamoDbDatabase) (row : list string) (w : World) :
  (row = [] /\ import_row self row w = (Raise IndexError, w))
  \/ exists r0 rest w',
       row = r0 :: rest
       /\ ensured self r0 w w'
       /\ (((length rest < 3)%nat /\ import_row self row w = (Raise IndexError, w'))
           \/ exists key value yyyymmdd tail,
                rest = key :: value :: yyyymmdd :: tail
                /\ ((strptime_Ymd yyyymmdd = None
                     /\ import_row self row w = (Raise ValueError, w'))
                    \/ exists d,
                         strptime_Ymd yyyymmdd = Some d
                         /\ ((tables w' !! (r0 +:+ suffix self) = None
                              /\ import_row self row w
                                 = (Raise ResourceNotFoundException, w'))
                             \/ exists tb,
                                  tables w' !! (r0 +:+ suffix self) = Some tb
                                  /\ ((valid_item (mkItem key (isoformat d) value)
                                       = false
                                       /\ import_row self row w
                                          = (Raise ValidationException, w'))
                                      \/ (valid_item (mkItem key (isoformat d) value)
                                          = true
                                          /\ import_row self row w
                                     = (Ok tt,
                                        mkWorld
                                          (<[r0 +:+ suffix self :=
                                               with_items tb
                                                 (<[(key, isoformat d) := value]>
                                                    (table_items tb))]> (tables w'))
                                          (files w')
                                          (log w'
                                           ++ ["KEYSTORE - Item: " +:+ key
                                               +:+ " has been added into "
                                               +:+ (r0 +:+ suffix self)
                                               +:+ " table."])%list
                                          (stdout w'))))))).
Proof.
  destruct row as [|r0 rest]; [left; split; reflexivity|]. right.
  destruct (ensure_table_run self r0 w) as (w' & Hens & Hrun).
  exists r0, rest, w'. split; [reflexivity|]. split; [exact Hens|].
  unfold import_row. erewrite bind_ok by reflexivity. rewrite Hrun.
  destruct rest as [|key [|value [|yyyymmdd tail]]];
    try (left; split; [cbn [length]; lia|reflexivity]).
  right. exists key, value, yyyymmdd, tail. split; [reflexivity|].
  do 3 (erewrite bind_ok by reflexivity).
  destruct (strptime_Ymd yyyymmdd) as [d|] eqn:Hd; [|left; split; reflexivity].
  right. exists d. split; [reflexivity|].
  erewrite bind_ok by reflexivity.
  unfold get_table_resource. erewrite bind_ok by reflexivity.
  rewrite get_complete_name_suffixed.
  unfold table_put_item, bind. cbn [name].
  destruct (tables w' !! (r0 +:+ suffix self)) as [tb|] eqn:Ht.
  - right. exists tb. split; [reflexivity|].
    destruct (valid_item (mkItem key (isoformat d) value)).
    + right. split; reflexivity.
    + left. split; reflexivity.
  - left. split; reflexivity.
Qed.

Lemma ensured_keeps_items (self : DynamoDbDatabase) (r0 : string) (w w' : World) :
  ensured self r0 w w' -> keeps_items w w'.
Proof.
  intros [Hf [[_ Ht] | (_ & Hn & Ht)]]; (split; [exact Hf|]); rewrite Ht.
  - split; auto.
  - split.
    + intros n t Hn'. rewrite lookup_insert_ne; [exact Hn'|]. congruence.
    + intros n t Hn'. rewrite lookup_insert in Hn'. case_decide.
      * right. injection Hn' as <-. reflexivity.
      * left. exact Hn'.
Qed.

Lemma keeps_keys_refl (w : World) : keeps_keys w w.
Proof. intros n tb Hn. exists tb. auto. Qed.

Lemma keeps_keys_trans (w1 w2 w3 : World) :
  keeps_keys w1 w2 -> keeps_keys w2 w3 -> keeps_keys w1 w3.
Proof.
  intros H12 H23 n tb Hn.
  destruct (H12 n tb Hn) as (tb2 & Hn2 & Hp2).
  destruct (H23 n tb2 Hn2) as (tb3 & Hn3 & Hp3).
  exists tb3. split; [exact Hn3|]. auto.
Qed.

Lemma keeps_items_keeps_keys (w w' : World) : keeps_items w w' -> keeps_keys w w'.
Proof. intros (_ & Hkeep & _) n tb Hn. exists tb. split; [apply Hkeep, Hn|auto]. Qed.

Lemma keeps_keys_put (w : World) (n : string) (tb : Table) (p : string * string)
  (v : string) (l o : list string) :
  tables w !! n = Some tb ->
  keeps_keys w
    (mkWorld (<[n := with_items tb (<[p := v]> (table_items tb))]> (tables w))
       (files w) l o).
Proof.
  intros Hn n' tb' Hn'. cbn [tables].
  destruct (decide (n = n')) as [<- | Hne].
  - rewrite lookup_insert_eq. eexists. split; [reflexivity|].
    cbn [with_items table_items]. intros q Hq.
    assert (tb' = tb) as -> by congruence.
    rewrite lookup_insert. case_decide; [eauto|exact Hq].
  - rewrite lookup_insert_ne by exact Hne. exists tb'. auto.
Qed.

(** The body of the import loop removes no table and no stored pair, touches
    no file, and touches no table whose name does not end with the suffix,
    however it ends. *)
Lemma import_row_frame (self : DynamoDbDatabase) (row : list string) (w : World) :
  keeps_keys w (snd (import_row self row w))
  /\ files (snd (import_row self row w)) = files w
  /\ forall n, endswith n (suffix self) = false ->
               tables (snd (import_row self row w)) !! n = tables w !! n.
Proof.
  assert (Hens : forall r0 w',
             ensured self r0 w w' ->
             forall n, endswith n (suffix self) = false ->
                       tables w' !! n = tables w !! n).
  { intros r0 w' [_ [[_ Ht] | (_ & _ & Ht)]] n Hn; rewrite Ht; [reflexivity|].
    apply lookup_insert_ne. intros <-.
    rewrite get_complete_name_endswith in Hn. discriminate. }
  destruct (import_row_cases self row w)
    as [[_ ->] | (r0 & rest & w' & -> & He & Hcases)].
  - cbn [snd]. split; [apply keeps_keys_refl|]. split; reflexivity.
  - pose proof (keeps_items_keeps_keys _ _ (ensured_keeps_items _ _ _ _ He)) as Hk.
    pose proof (Hens _ _ He) as Hiso. destruct He as [Hf _].
    destruct Hcases
      as [[_ ->] | (key & value & yyyymmdd & tail & -> &
                     [[_ ->] | (d & _ & [[_ ->] | (tb & Htb & [[_ ->] | [_ ->]])])])];
      cbn [snd]; try (split; [exact Hk|]; split; [exact Hf|exact Hiso]).
    split; [|split].
    + eapply keeps_keys_trans; [exact Hk|]. apply keeps_keys_put. exact Htb.
    + exact Hf.
    + intros n Hn. cbn [tables]. rewrite lookup_insert_ne; [apply Hiso, Hn|].
      intros <-. rewrite endswith_app in Hn. discriminate.
Qed.

Lemma import_rows_frame (self : DynamoDbDatabase) (rows : list (list string)) :
  forall line_count w,
    keeps_keys w (snd (import_rows self rows line_count w))
    /\ files (snd (import_rows self rows line_count w)) = files w
    /\ forall n, endswith n (suffix self) = false ->
                 tables (snd (import_rows self rows line_count w)) !! n = tables w !! n.
Proof.
  induction rows as [|row rows IH]; intros line_count w; cbn [import_rows].
  - cbn [snd ret]. split; [apply keeps_keys_refl|]. split; reflexivity.
  - destruct (readable_row row);
      [|cbn [snd raise]; split; [apply keeps_keys_refl|]; split; reflexivity].
    destruct (import_row_frame self row w) as (Hk & Hf & Hiso).
    unfold bind. destruct (import_row self row w) as [[[]|e] w1]; cbn [snd] in *.
    + destruct (IH (line_count + 1)%nat w1) as (Hk' & Hf' & Hiso').
      split; [eapply keeps_keys_trans; eassumption|].
      split; [congruence|]. intros n Hn. rewrite Hiso', Hiso; auto.
    + split; [exact Hk|]. split; [exact Hf|exact Hiso].
Qed.

Lemma csv_read_snd (path : string) (w : World) : snd (csv_read path w) = w.
Proof.
  unfold csv_read. destruct (String.eqb path ""); [reflexivity|].
  destruct (files w !! path) as [[rows b| | |]|]; reflexivity.
Qed.

Lemma import_data_from_csv_run (self : DynamoDbDatabase) (path : string) (w : World) :
  import_data_from_csv self path w
  = match fst (csv_read path w) with
    | Raise e => (Raise e, w)
    | Ok rows =>
        match import_rows self rows 0 w with
        | (Ok _, w1) =>
            (Ok tt,
             mkWorld (tables w1) (files w1)
               (log w1 ++ ["KEYSTORE - CSV File: " +:+ path
                           +:+ " content has been successfully imported into DynamoDb Tables."])%list
               (stdout w1))
        | (Raise e, w1) => (Raise e, w1)
        end
    end.
Proof.
  unfold import_data_from_csv, bind, log_info.
  pose proof (csv_read_snd path w) as Hw.
  destruct (csv_read path w) as [[rows|e] w0]; cbn [fst snd] in *; subst w0;
    [|reflexivity].
  destruct (import_rows self rows 0 w) as [[n|e] w1]; reflexivity.
Qed.

(** X12: whatever the file holds and however the import ends,
    [import_data_from_csv] removes no table and no stored (key, datetime)
    pair, and leaves every file as it was. *)
Theorem X12_import_never_removes_tables_pairs_or_files
  (self : DynamoDbDatabase) (path : string) (w : World) :
  keeps_keys w (snd (import_data_from_csv self path w))
  /\ files (snd (import_data_from_csv self path w)) = files w.
Proof.
  rewrite import_data_from_csv_run.
  destruct (fst (csv_read path w)) as [rows|e];
    [|cbn [snd]; split; [apply keeps_keys_refl|reflexivity]].
  destruct (import_rows_frame self rows 0%nat w) as (Hk & Hf & _).
  destruct (import_rows self rows 0 w) as [[n|e] w1]; cbn [snd] in *.
  - cbn [files]. split; [|exact Hf]. intros n' tb Hn. exact (Hk n' tb Hn).
  - split; [exact Hk|exact Hf].
Qed.

(** X13: a client works inside its own environment: [create_table],
    [delete_table], [put_item_into_table] and [import_data_from_csv] leave
    every table whose name does not end with the client's suffix exactly as
    it was, whatever their arguments and however they end. *)
Theorem X13_writes_stay_within_the_suffix
  (self : DynamoDbDatabase) (n : string) (w : World) :
  endswith n (suffix self) = false ->
  (forall table_name,
      tables (snd (create_table self table_name w)) !! n = tables w !! n)
  /\ (forall table_name,
         tables (snd (delete_table self table_name w)) !! n = tables w !! n)
  /\ (forall table_name key value dt,
         tables (snd (put_item_into_table self table_name key value dt w)) !! n
         = tables w !! n)
  /\ (forall path,
         tables (snd (import_data_from_csv self path w)) !! n = tables w !! n).
Proof.
  intros Hn.
  assert (Hne : forall t, n <> get_complete_name self t).
  { intros t ->. rewrite get_complete_name_endswith in Hn. discriminate. }
  split; [|split; [|split]].
  - intros table_name.
    destruct (tables w !! get_complete_name self (lower table_name)) as [t|] eqn:Ht.
    + rewrite (create_table_existing _ _ _ _ Ht). reflexivity.
    + rewrite (create_table_new _ _ _ Ht). cbn [snd tables].
      apply lookup_insert_ne. intros E. exact (Hne _ (eq_sym E)).
  - intros table_name. rewrite delete_table_tables.
    apply lookup_delete_ne. intros E. exact (Hne _ (eq_sym E)).
  - intros table_name key value dt.
    destruct (tables w !! get_complete_name self (lower table_name)) as [t|] eqn:Ht.
    + destruct (valid_item (mkItem key (isoformat dt) value)) eqn:Hv.
      * rewrite (put_item_into_table_ok _ _ _ _ _ _ _ Ht Hv). cbn [snd tables].
        apply lookup_insert_ne. intros E. exact (Hne _ (eq_sym E)).
      * rewrite (put_item_into_table_refused _ _ _ _ _ _ _ Ht Hv). reflexivity.
    + rewrite (put_item_into_table_absent _ _ _ _ _ _ Ht). reflexivity.
  - intros path. rewrite import_data_from_csv_run.
    destruct (fst (csv_read path w)) as [rows|e]; [|reflexivity].
    destruct (import_rows_frame self rows 0%nat w) as (_ & _ & Hiso).
    destruct (import_rows self rows 0 w) as [[m|e] w1]; cbn [snd] in *;
      apply Hiso, Hn.
Qed.

Lemma X13_writes_stay_within_the_suffix_witness :
  (forall table_name,
      tables (snd (create_table dev_client table_name orders_world)) !! "orders_prod"
      = tables orders_world !! "orders_prod")
  /\ (forall table_name,
         tables (snd (delete_table dev_client table_name orders_world)) !! "orders_prod"
         = tables orders_world !! "orders_prod")
  /\ (forall table_name key value dt,
         tables (snd (put_item_into_table dev_client table_name key value dt
                        orders_world)) !! "orders_prod"
         = tables orders_world !! "orders_prod")
  /\ (forall path,
         tables (snd (import_data_from_csv dev_client path orders_world)) !! "orders_prod"
         = tables orders_world !! "orders_prod").
Proof.
  apply (X13_writes_stay_within_the_suffix dev_client "orders_prod" orders_world).
  vm_compute. reflexivity.
Defined.

(** ** Import and export together *)

(** X14: a file written by [export_data_to_csv] cannot be read back by
    [import_data_from_csv]: when the key has an item and the path can be
    opened for writing, the export goes through, and the first row of its
    file is the header, whose fourth field is no date, so the import ends
    with ValueError at that row; by then it may have created an empty table
    for the header's first field, and it has written no item. *)
Theorem X14_import_of_an_exported_file_raises
  (self : DynamoDbDatabase) (table_name key path : string) (w : World) (tb : Table)
  (d0 v0 : string) :
  tables w !! get_complete_name self table_name = Some tb ->
  table_items tb !! (key, d0) = Some v0 ->
  writable_path w path = true ->
  fst (export_data_to_csv self table_name key path w) = Ok tt
  /\ exists w2,
       import_data_from_csv self path (snd (export_data_to_csv self table_name key path w))
       = (Raise ValueError, w2)
       /\ keeps_items (snd (export_data_to_csv self table_name key path w)) w2.
Proof.
  intros Ht Hd0 Hw.
  destruct (select tb (KeyEq "key" key) None false) as [|first rest] eqn:Hsel.
  { apply select_key_nil with (d := d0) in Hsel. congruence. }
  rewrite (export_written _ _ _ _ _ _ _ _ Ht Hsel Hw). cbn [fst snd].
  split; [reflexivity|].
  rewrite import_data_from_csv_run.
  erewrite (csv_read_ok path _ true)
    by (solve [exact (writable_path_nonempty _ _ Hw)
              | cbn [files]; apply lookup_insert_eq]).
  cbn [fst import_rows].
  change (readable_row ["table"; "key"; "value"; "datetime_yyyymmdd"]) with true.
  cbn iota. unfold bind at 1.
  match goal with
  | |- context [import_row self ?row ?w1] =>
      destruct (import_row_cases self row w1)
        as [[Hnil _] | (r0 & rest' & w' & Hrow & He & Hcases)]
  end; [discriminate|].
  injection Hrow as <- <-.
  destruct Hcases
    as [[Hlen _] | (k' & v' & y' & tail & Hrest &
                     [[_ ->] | (d & Hd & _)])].
  - cbn [length] in Hlen. lia.
  - eexists. split; [reflexivity|]. exact (ensured_keeps_items _ _ _ _ He).
  - injection Hrest as <- <- <- <-. vm_compute in Hd. discriminate.
Qed.

Lemma X14_import_of_an_exported_file_raises_witness :
  fst (export_data_to_csv dev_client "orders" "o1" "out.csv" orders_world) = Ok tt
  /\ exists w2,
       import_data_from_csv dev_client "out.csv"
         (snd (export_data_to_csv dev_client "orders" "o1" "out.csv" orders_world))
       = (Raise ValueError, w2)
       /\ keeps_items
            (snd (export_data_to_csv dev_client "orders" "o1" "out.csv" orders_world)) w2.
Proof.
  apply (X14_import_of_an_exported_file_raises dev_client "orders" "o1" "out.csv"
           orders_world orders_table "2023-01-02T00:00:00" "150").
  - vm_compute. reflexivity.
  - vm_compute. reflexivity.
  - vm_compute. reflexivity.
Defined.

Lemma lower_suffixed (self : DynamoDbDatabase) (r0 : string) :
  has_upper (r0 +:+ suffix self) = false ->
  get_complete_name self (lower (r0 +:+ suffix self)) = r0 +:+ suffix self.
Proof.
  intros Hu. rewrite (lower_no_upper _ Hu). apply get_complete_name_suffixed.
Qed.

(** An importable row goes through: its item is stored under the name as
    read, nothing stored is lost and no file changes. *)
Lemma import_row_importable (self : DynamoDbDatabase) (row : list string) (w : World) :
  importable self row = true ->
  exists r0 key value yyyymmdd tail d w1 tb1,
    row = r0 :: key :: value :: yyyymmdd :: tail
    /\ strptime_Ymd yyyymmdd = Some d
    /\ import_row self row w = (Ok tt, w1)
    /\ tables w1 !! (r0 +:+ suffix self) = Some tb1
    /\ table_items tb1 !! (key, isoformat d) = Some value.
Proof.
  intros Himp.
  destruct row as [|r0 [|key [|value [|yyyymmdd tail]]]]; try discriminate.
  cbn [importable] in Himp. apply andb_true_iff in Himp as [Hu Hd].
  apply andb_true_iff in Hu as [_ Hu]. apply negb_true_iff in Hu.
  destruct (strptime_Ymd yyyymmdd) as [d|] eqn:Hparse; [|discriminate].
  destruct (import_row_cases self (r0 :: key :: value :: yyyymmdd :: tail) w)
    as [[Hnil _] | (r0' & rest & w' & Hrow & He & Hcases)]; [discriminate|].
  injection Hrow as <- <-.
  destruct Hcases
    as [[Hlen _] | (k' & v' & y' & tail' & Hrest &
                     [[Hnone _] | (d' & Hd' & Hput)])].
  - cbn [length] in Hlen. lia.
  - injection Hrest as <- <- <- <-. congruence.
  - injection Hrest as <- <- <- <-. assert (d' = d) as -> by congruence.
    assert (Hex : is_Some (tables w' !! (r0 +:+ suffix self))).
    { destruct He as [_ [[[Hs | Hs] ->] | (_ & _ & ->)]].
      - exact Hs.
      - rewrite (lower_suffixed _ _ Hu) in Hs. exact Hs.
      - rewrite (lower_suffixed _ _ Hu), lookup_insert_eq. eauto. }
    destruct Hput as [[Hnone _] | (tb & Htb & [[Hinv _] | [_ Hrun]])].
    + rewrite Hnone in Hex. destruct Hex. discriminate.
    + congruence.
    + do 8 eexists. split; [reflexivity|]. split; [exact Hparse|].
      split; [exact Hrun|]. cbn [tables]. split; [apply lookup_insert_eq|].
      cbn [with_items table_items]. apply lookup_insert_eq.
Qed.

Lemma importable_readable (self : DynamoDbDatabase) (row : list string) :
  importable self row = true -> readable_row row = true.
Proof.
  destruct row as [|r0 [|key [|value [|yyyymmdd tail]]]]; try discriminate.
  cbn [importable]. intros H.
  apply andb_true_iff in H as [H _]. apply andb_true_iff in H as [H _].
  apply andb_true_iff in H as [H _]. exact H.
Qed.

Lemma import_rows_importable (self : DynamoDbDatabase) (rows : list (list string)) :
  Forall (fun row => importable self row = true) rows ->
  forall line_count w,
    exists w1,
      import_rows self rows line_count w = (Ok (line_count + length rows)%nat, w1)
      /\ forall r0 key value yyyymmdd tail,
           r0 :: key :: value :: yyyymmdd :: tail ∈ rows ->
           exists d tb1,
             strptime_Ymd yyyymmdd = Some d
             /\ tables w1 !! (r0 +:+ suffix self) = Some tb1
             /\ is_Some (table_items tb1 !! (key, isoformat d)).
Proof.
  induction 1 as [|row rows Hrow _ IH]; intros line_count w; cbn [import_rows length].
  - exists w. split; [unfold ret; f_equal; f_equal; lia|].
    intros r0 key value yyyymmdd tail Hin. apply elem_of_nil in Hin. contradiction.
  - rewrite (importable_readable self row Hrow).
    destruct (import_row_importable self row w Hrow)
      as (r0 & key & value & yyyymmdd & tail & d & wm & tbm & -> & Hd & Hrun & Htb & Hv).
    erewrite bind_ok by exact Hrun.
    destruct (IH (line_count + 1)%nat wm) as (w1 & Hrest & Hstored).
    exists w1. split; [rewrite Hrest; f_equal; f_equal; lia|].
    intros r0' key' value' yyyymmdd' tail' Hin.
    apply elem_of_cons in Hin as [E | Hin]; [|exact (Hstored _ _ _ _ _ Hin)].
    injection E as -> -> -> -> ->.
    destruct (import_rows_frame self rows (line_count + 1)%nat wm) as (Hk & _ & _).
    rewrite Hrest in Hk. cbn [snd] in Hk.
    destruct (Hk _ _ Htb) as (tb1 & Htb1 & Hp).
    exists d, tb1. split; [exact Hd|]. split; [exact Htb1|].
    apply Hp. rewrite Hv. eauto.
Qed.

(** What the import of a file of importable rows leaves. *)
Lemma import_data_from_csv_importable
  (self : DynamoDbDatabase) (path : string) (rows : list (list string))
  (writable : bool) (w : World) :
  path <> "" ->
  files w !! path = Some (CsvFile rows writable) ->
  Forall (fun row => importable self row = true) rows ->
  exists w1,
    import_data_from_csv self path w = (Ok tt, w1)
    /\ files w1 = files w
    /\ keeps_keys w w1
    /\ (forall r0 key value yyyymmdd tail,
           r0 :: key :: value :: yyyymmdd :: tail ∈ rows ->
           exists d tb1,
             strptime_Ymd yyyymmdd = Some d
             /\ tables w1 !! (r0 +:+ suffix self) = Some tb1
             /\ is_Some (table_items tb1 !! (key, isoformat d)))
    /\ (forall pre r0 key value yyyymmdd tail,
           rows = (pre ++ [r0 :: key :: value :: yyyymmdd :: tail])%list ->
           exists d tb1,
             strptime_Ymd yyyymmdd = Some d
             /\ tables w1 !! (r0 +:+ suffix self) = Some tb1
             /\ table_items tb1 !! (key, isoformat d) = Some value).
Proof.
  intros Hpath Hfile Hall.
  destruct (import_rows_importable self rows Hall 0%nat w) as (wr & Hrun & Hstored).
  pose proof (X := import_data_from_csv_run self path w).
  rewrite (csv_read_ok path rows writable w Hpath Hfile) in X. cbn [fst] in X.
  rewrite Hrun in X. eexists. split; [exact X|].
  destruct (import_rows_frame self rows 0%nat w) as (Hk & Hf & _).
  rewrite Hrun in Hk, Hf. cbn [snd] in Hk, Hf. cbn [files tables].
  split; [exact Hf|]. split; [exact Hk|]. split; [exact Hstored|].
  intros pre r0 key value yyyymmdd tail ->.
  apply Forall_app in Hall as [Hpre Hlast].
  apply Forall_cons in Hlast as [Hlast _].
  rewrite import_rows_app in Hrun.
  destruct (import_rows_importable self pre Hpre 0%nat w) as (wp & Hrunp & _).
  rewrite Hrunp in Hrun. cbn [import_rows] in Hrun.
  rewrite (importable_readable self _ Hlast) in Hrun.
  destruct (import_row_importable self _ wp Hlast)
    as (r0' & key' & value' & y' & tail' & d & wl & tbl & E & Hd & Hrow & Htb & Hv).
  injection E as <- <- <- <- <-.
  erewrite bind_ok in Hrun by exact Hrow. unfold ret in Hrun.
  injection Hrun as _ <-. eauto.
Qed.

(** X15: a file whose rows all have four fields or more, a date the parser
    takes, a table name in ASCII without capital letters and an item within
    the limits of the service (a key of 1 to 2048 bytes, 400 KB in all) is
    imported to the end: the call returns, logs its last line, leaves the
    files alone and loses nothing that was stored; afterwards every row's
    (key, date) pair is stored in the table named by the row's first field
    plus the suffix, and the pair of the last row holds the last row's
    value. *)
Theorem X15_import_of_well_formed_rows_stores_every_row
  (self : DynamoDbDatabase) (path : string) (rows : list (list string))
  (writable : bool) (w : World) :
  path <> "" ->
  files w !! path = Some (CsvFile rows writable) ->
  Forall (fun row => importable self row = true) rows ->
  exists w1,
    import_data_from_csv self path w = (Ok tt, w1)
    /\ files w1 = files w
    /\ keeps_keys w w1
    /\ (forall r0 key value yyyymmdd tail,
           r0 :: key :: value :: yyyymmdd :: tail ∈ rows ->
           exists d tb1,
             strptime_Ymd yyyymmdd = Some d
             /\ tables w1 !! (r0 +:+ suffix self) = Some tb1
             /\ is_Some (table_items tb1 !! (key, isoformat d)))
    /\ (forall pre r0 key value yyyymmdd tail,
           rows = (pre ++ [r0 :: key :: value :: yyyymmdd :: tail])%list ->
           exists d tb1,
             strptime_Ymd yyyymmdd = Some d
             /\ tables w1 !! (r0 +:+ suffix self) = Some tb1
             /\ table_items tb1 !! (key, isoformat d) = Some value).
Proof. exact (import_data_from_csv_importable self path rows writable w). Qed.

Lemma X15_import_of_well_formed_rows_stores_every_row_witness :
  exists w1,
    import_data_from_csv dev_client "in.csv" two_rows_world = (Ok tt, w1)
    /\ files w1 = files two_rows_world
    /\ keeps_keys two_rows_world w1
    /\ (forall r0 key value yyyymmdd tail,
           r0 :: key :: value :: yyyymmdd :: tail
           ∈ [["orders"; "o1"; "100"; "20230101"]; ["orders"; "o1"; "150"; "20230102"]] ->
           exists d tb1,
             strptime_Ymd yyyymmdd = Some d
             /\ tables w1 !! (r0 +:+ suffix dev_client) = Some tb1
             /\ is_Some (table_items tb1 !! (key, isoformat d)))
    /\ (forall pre r0 key value yyyymmdd tail,
           [["orders"; "o1"; "100"; "20230101"]; ["orders"; "o1"; "150"; "20230102"]]
           = (pre ++ [r0 :: key :: value :: yyyymmdd :: tail])%list ->
           exists d tb1,
             strptime_Ymd yyyymmdd = Some d
             /\ tables w1 !! (r0 +:+ suffix dev_client) = Some tb1
             /\ table_items tb1 !! (key, isoformat d) = Some value).
Proof.
  apply (X15_import_of_well_formed_rows_stores_every_row dev_client "in.csv"
           [["orders"; "o1"; "100"; "20230101"]; ["orders"; "o1"; "150"; "20230102"]]
           true two_rows_world).
  - discriminate.
  - vm_compute. reflexivity.
  - repeat constructor.
Defined.

Lemma get_complete_name_unsuffixed (self : DynamoDbDatabase) (t : string) :
  endswith t (suffix self) = false -> get_complete_name self t = t +:+ suffix self.
Proof. intros H. unfold get_complete_name. rewrite H. reflexivity. Qed.

(** X16: a row just imported can be read back: after the import of a file of
    well-formed rows, [get_items_greater_than_date] for the table, key and
    date of the last row returns a list of items, and the list holds the
    last row's item when the items of the key from that date on fit in one
    page. *)
Theorem X16_last_imported_row_is_read_back
  (self : DynamoDbDatabase) (path : string) (pre : list (list string))
  (r0 key value yyyymmdd : string) (tail : list string) (writable : bool) (w : World) :
  path <> "" ->
  files w !! path
  = Some (CsvFile (pre ++ [r0 :: key :: value :: yyyymmdd :: tail])%list writable) ->
  Forall (fun row => importable self row = true)
    (pre ++ [r0 :: key :: value :: yyyymmdd :: tail])%list ->
  endswith r0 (suffix self) = false ->
  exists w1 d tb1 items,
    import_data_from_csv self path w = (Ok tt, w1)
    /\ strptime_Ymd yyyymmdd = Some d
    /\ tables w1 !! get_complete_name self r0 = Some tb1
    /\ get_items_greater_than_date self r0 key yyyymmdd w1 = (Ok (Some items), w1)
    /\ (fits_one_page
          (select tb1 (CondAnd (KeyEq "key" key) (KeyGte "datetime" (isoformat d)))
             None false) = true ->
        mkItem key (isoformat d) value ∈ items).
Proof.
  intros Hpath Hfile Hall Hr0.
  destruct (import_data_from_csv_importable self path _ writable w Hpath Hfile Hall)
    as (w1 & Hrun & _ & _ & _ & Hlast).
  destruct (Hlast pre r0 key value yyyymmdd tail eq_refl) as (d & tb1 & Hd & Htb & Hv).
  exists w1, d, tb1.
  assert (Ht : tables w1 !! get_complete_name self r0 = Some tb1)
    by (rewrite (get_complete_name_unsuffixed _ _ Hr0); exact Htb).
  pose proof (get_items_greater_than_date_query self r0 key yyyymmdd w1 tb1 d Hd Ht) as Q.
  assert (Hin : mkItem key (isoformat d) value
                ∈ select tb1 (CondAnd (KeyEq "key" key)
                                (KeyGte "datetime" (isoformat d))) None false).
  { apply elem_of_select_all. split; [exact Hv|].
    change (String.eqb key key && String.leb (isoformat d) (isoformat d) = true).
    rewrite String.eqb_refl, string_leb_refl. reflexivity. }
  destruct (select tb1 _ None false) as [|first rest] eqn:Hsel.
  - apply elem_of_nil in Hin. contradiction.
  - exists (first_page (first :: rest)). split; [exact Hrun|]. split; [exact Hd|].
    split; [exact Ht|]. split; [exact Q|].
    intros Hfit. rewrite (first_page_fits _ Hfit). exact Hin.
Qed.

Lemma X16_last_imported_row_is_read_back_witness :
  exists w1 d tb1 items,
    import_data_from_csv dev_client "in.csv" two_rows_world = (Ok tt, w1)
    /\ strptime_Ymd "20230102" = Some d
    /\ tables w1 !! get_complete_name dev_client "orders" = Some tb1
    /\ get_items_greater_than_date dev_client "orders" "o1" "20230102" w1
       = (Ok (Some items), w1)
    /\ (fits_one_page
          (select tb1 (CondAnd (KeyEq "key" "o1") (KeyGte "datetime" (isoformat d)))
             None false) = true ->
        mkItem "o1" (isoformat d) "150" ∈ items).
Proof.
  apply (X16_last_imported_row_is_read_back dev_client "in.csv"
           [["orders"; "o1"; "100"; "20230101"]] "orders" "o1" "150" "20230102" []
           true two_rows_world).
  - discriminate.
  - vm_compute. reflexivity.
  - repeat constructor.
  - vm_compute. reflexivity.
Defined.

(** X17: a row that the reader yields, whose table name is in ASCII and has
    a capital letter, for a table that does not exist under that spelling,
    ends the import with ResourceNotFoundException: the loop makes sure that the table under the
    lower-cased name exists, then writes to the name as read. No item is
    written, for this row or for the rows after it. *)
Theorem X17_import_of_a_mixed_case_table_name_raises
  (host : string) (url : option string) (path : string)
  (r0 key value yyyymmdd : string) (tail : list string) (post : list (list string))
  (d : datetime) (writable : bool) (w : World) :
  let self := __init__ host url in
  is_ascii r0 = true ->
  has_upper r0 = true ->
  path <> "" ->
  files w !! path
  = Some (CsvFile ((r0 :: key :: value :: yyyymmdd :: tail) :: post) writable) ->
  readable_row (r0 :: key :: value :: yyyymmdd :: tail) = true ->
  strptime_Ymd yyyymmdd = Some d ->
  valid_item (mkItem key (isoformat d) value) = true ->
  tables w !! (r0 +:+ suffix self) = None ->
  exists w2,
    import_data_from_csv self path w = (Raise ResourceNotFoundException, w2)
    /\ keeps_items w w2
    /\ is_Some (tables w2 !! (lower r0 +:+ suffix self))
    /\ tables w2 !! (r0 +:+ suffix self) = None.
Proof.
  intros self _ Hu Hpath Hfile Hread Hd _ Hnone.
  assert (Hcreated : get_complete_name self (lower (r0 +:+ suffix self))
                     = lower r0 +:+ suffix self).
  { rewrite lower_app, (lower_no_upper (suffix self)) by apply has_upper_suffix.
    apply get_complete_name_suffixed. }
  assert (Hne : lower r0 +:+ suffix self <> r0 +:+ suffix self).
  { intros E. apply (f_equal has_upper) in E.
    rewrite !has_upper_app, has_upper_lower, Hu in E. subst self.
    rewrite has_upper_suffix in E. discriminate. }
  rewrite import_data_from_csv_run, (csv_read_ok path _ writable w Hpath Hfile).
  cbn [fst import_rows]. rewrite Hread. unfold bind at 1.
  destruct (import_row_cases self (r0 :: key :: value :: yyyymmdd :: tail) w)
    as [[Hnil _] | (r0' & rest & w' & Hrow & He & Hcases)]; [discriminate|].
  injection Hrow as <- <-.
  assert (Hw' : tables w' !! (r0 +:+ suffix self) = None
                /\ is_Some (tables w' !! (lower r0 +:+ suffix self))).
  { destruct He as [_ [[[Hs | Hs] ->] | (_ & _ & ->)]].
    - rewrite Hnone in Hs. destruct Hs. discriminate.
    - rewrite Hcreated in Hs. auto.
    - rewrite Hcreated. rewrite lookup_insert_ne by exact Hne.
      rewrite lookup_insert_eq. eauto. }
  destruct Hw' as [Hw'none Hw'low].
  destruct Hcases
    as [[Hlen _] | (k' & v' & y' & tail' & Hrest &
                     [[Hbad _] | (d' & _ & [[_ ->] | (tb & Htb & _)])])].
  - cbn [length] in Hlen. lia.
  - injection Hrest as <- <- <- <-. congruence.
  - exists w'. split; [reflexivity|].
    split; [exact (ensured_keeps_items _ _ _ _ He)|]. auto.
  - congruence.
Qed.

Lemma X17_import_of_a_mixed_case_table_name_raises_witness :
  exists w2,
    import_data_from_csv dev_client "in.csv" mixed_case_csv_world
    = (Raise ResourceNotFoundException, w2)
    /\ keeps_items mixed_case_csv_world w2
    /\ is_Some (tables w2 !! (lower "Orders" +:+ suffix dev_client))
    /\ tables w2 !! ("Orders" +:+ suffix dev_client) = None.
Proof.
  apply (X17_import_of_a_mixed_case_table_name_raises "dfhdpetl02.etl.local" None
           "in.csv" "Orders" "o1" "100" "20230101" [] []
           (mkdatetime 2023 1 1 0 0 0 0 None) true mixed_case_csv_world).
  - reflexivity.
  - reflexivity.
  - discriminate.
  - vm_compute. reflexivity.
  - vm_compute. reflexivity.
  - vm_compute. reflexivity.
  - vm_compute. reflexivity.
  - vm_compute. reflexivity.
Defined.

(** ** Dates as sort keys *)

Lemma append_assoc (s1 s2 s3 : string) : (s1 +:+ s2) +:+ s3 = s1 +:+ (s2 +:+ s3).
Proof.
  induction s1 as [|c s1 IH]; [reflexivity|].
  rewrite !append_cons, IH. reflexivity.
Qed.

Lemma ascii_compare_digit_char (a b : Z) :
  Ascii.compare (digit_char a) (digit_char b) = (a mod 10 ?= b mod 10).
Proof.
  unfold Ascii.compare.
  rewrite <- (N2Nat.id (N_of_ascii (digit_char a))),
    <- (N2Nat.id (N_of_ascii (digit_char b))).
  change (N.to_nat (N_of_ascii (digit_char a))) with (nat_of_ascii (digit_char a)).
  change (N.to_nat (N_of_ascii (digit_char b))) with (nat_of_ascii (digit_char b)).
  rewrite !nat_of_digit_char.
  pose proof (Z.mod_pos_bound a 10 eq_refl). pose proof (Z.mod_pos_bound b 10 eq_refl).
  rewrite <- N2Z.inj_compare, !nat_N_Z, !Z2Nat.id by lia.
  destruct (Z.compare_spec (a mod 10) (b mod 10));
    [apply Z.compare_eq_iff|apply Z.compare_lt_iff|apply Z.compare_gt_iff]; lia.
Qed.

(** Strings that start with numbers printed on the same width compare as the
    numbers do, then as what follows. *)
Lemma string_compare_zfill (n : nat) :
  forall a b s t,
    String.compare (zfill n a +:+ s) (zfill n b +:+ t)
    = match a mod 10 ^ Z.of_nat n ?= b mod 10 ^ Z.of_nat n with
      | Eq => String.compare s t
      | c => c
      end.
Proof.
  induction n as [|n IH]; intros a b s t.
  - cbn [zfill]. rewrite !append_nil. change (10 ^ Z.of_nat 0) with 1.
    rewrite !Z.mod_1_r. reflexivity.
  - cbn [zfill]. rewrite !append_assoc, !append_cons, !append_nil, IH.
    cbn [String.compare]. rewrite ascii_compare_digit_char.
    rewrite Nat2Z.inj_succ, Z.pow_succ_r by lia.
    assert (Hpow : 0 < 10 ^ Z.of_nat n) by (apply Z.pow_pos_nonneg; lia).
    rewrite !(Z.rem_mul_r _ 10 (10 ^ Z.of_nat n)) by lia.
    pose proof (Z.mod_pos_bound a 10 eq_refl). pose proof (Z.mod_pos_bound b 10 eq_refl).
    set (qa := (a / 10) mod 10 ^ Z.of_nat n). set (qb := (b / 10) mod 10 ^ Z.of_nat n).
    set (ra := a mod 10) in *. set (rb := b mod 10) in *.
    destruct (Z.compare_spec qa qb) as [Hq|Hq|Hq].
    + destruct (Z.compare_spec ra rb) as [Hr|Hr|Hr].
      * rewrite (proj2 (Z.compare_eq_iff _ _)) by lia. reflexivity.
      * rewrite (proj2 (Z.compare_lt_iff (ra + 10 * qa) _)) by lia. reflexivity.
      * rewrite (proj2 (Z.compare_gt_iff (ra + 10 * qa) _)) by lia. reflexivity.
    + rewrite (proj2 (Z.compare_lt_iff (ra + 10 * qa) _)) by lia. reflexivity.
    + rewrite (proj2 (Z.compare_gt_iff (ra + 10 * qa) _)) by lia. reflexivity.
Qed.

Lemma string_leb_zfill (n : nat) (a b : Z) (s t : string) :
  0 <= a <= b -> b < 10 ^ Z.of_nat n ->
  (a = b -> String.leb s t = true) ->
  String.leb (zfill n a +:+ s) (zfill n b +:+ t) = true.
Proof.
  intros Hab Hb Hst. unfold String.leb. rewrite string_compare_zfill.
  rewrite !Z.mod_small by lia.
  destruct (Z.compare_spec a b) as [E|L|G]; [|reflexivity|lia].
  exact (Hst E).
Qed.

Lemma string_leb_cons (c : ascii) (s t : string) :
  String.leb s t = true -> String.leb (String c s) (String c t) = true.
Proof.
  unfold String.leb. cbn [String.compare]. rewrite ascii_compare_refl. auto.
Qed.

Lemma string_leb_nil (t : string) : String.leb "" t = true.
Proof. destruct t; reflexivity. Qed.

(** Midnight of a day, printed without offset, is not above any reading of
    the clock on that day, printed with its offset. *)
Lemma midnight_leb_isoformat (dt : datetime) :
  civil dt ->
  String.leb (isoformat (mkdatetime (year dt) (month dt) (day dt) 0 0 0 0 None))
    (isoformat dt) = true.
Proof.
  intros (Hy & Hm & Hd & Hh & Hmi & Hs).
  pose proof (days_in_month_le_31 (year dt) (month dt)).
  unfold isoformat. cbn [year month day hour minute second microsecond utcoffset].
  repeat first
    [ rewrite append_cons
    | rewrite append_nil
    | apply string_leb_cons
    | apply string_leb_nil
    | apply string_leb_zfill; [lia | simpl; lia | intros _] ].
Qed.

(** X18: an item written now is found by a query from today's date: on an
    existing table, under an ASCII name without a capital letter, after
    [put_item_into_table] of an item within the limits of the service with
    a clock reading of some civil day, [get_items_greater_than_date] for the
    same key and that day written YYYYMMDD returns a list of items, and the
    list holds the item just written when the items of the key from that
    day on fit in one page. *)
Theorem X18_item_written_today_is_found_from_today
  (self : DynamoDbDatabase) (table_name key value : string) (dt : datetime)
  (w : World) (tb : Table) :
  is_ascii table_name = true ->
  lower table_name = table_name ->
  tables w !! get_complete_name self table_name = Some tb ->
  valid_item (mkItem key (isoformat dt) value) = true ->
  civil dt ->
  let today := zfill 4 (year dt) +:+ zfill 2 (month dt) +:+ zfill 2 (day dt) in
  let midnight := isoformat (mkdatetime (year dt) (month dt) (day dt) 0 0 0 0 None) in
  let tb1 := with_items tb (<[(key, isoformat dt) := value]> (table_items tb)) in
  exists w1 items,
    put_item_into_table self table_name key value dt w = (Ok (Some put_item_output), w1)
    /\ tables w1 !! get_complete_name self table_name = Some tb1
    /\ get_items_greater_than_date self table_name key today w1 = (Ok (Some items), w1)
    /\ (fits_one_page
          (select tb1 (CondAnd (KeyEq "key" key) (KeyGte "datetime" midnight))
             None false) = true ->
        mkItem key (isoformat dt) value ∈ items).
Proof.
  intros _ Hlow Ht Hvalid Hcivil today midnight tb1.
  pose proof Hcivil as (Hy & Hm & Hd & _).
  assert (Hparse : strptime_Ymd today
                   = Some (mkdatetime (year dt) (month dt) (day dt) 0 0 0 0 None))
    by (apply strptime_Ymd_zfill; assumption).
  eexists.
  pose proof (put_item_into_table_ok self table_name key value dt w tb) as Hput.
  rewrite Hlow in Hput. specialize (Hput Ht Hvalid).
  match type of Hput with _ = (_, ?w1) =>
    assert (Ht1 : tables w1 !! get_complete_name self table_name = Some tb1)
      by (cbn [tables]; apply lookup_insert_eq);
    pose proof (get_items_greater_than_date_query self table_name key today w1 _ _
                  Hparse Ht1) as Q
  end.
  fold midnight in Q.
  assert (Hin : mkItem key (isoformat dt) value
                ∈ select tb1 (CondAnd (KeyEq "key" key) (KeyGte "datetime" midnight))
                    None false).
  { apply elem_of_select_all. split.
    - cbn [tb1 with_items table_items item_key item_datetime item_value].
      apply lookup_insert_eq.
    - change (String.eqb key key && String.leb midnight (isoformat dt) = true).
      subst midnight.
      rewrite String.eqb_refl, midnight_leb_isoformat by exact Hcivil. reflexivity. }
  destruct (select tb1 _ None false) as [|first rest] eqn:Hsel.
  - apply elem_of_nil in Hin. contradiction.
  - exists (first_page (first :: rest)). split; [exact Hput|]. split; [exact Ht1|].
    split; [exact Q|]. intros Hfit. rewrite (first_page_fits _ Hfit). exact Hin.
Qed.

Lemma X18_item_written_today_is_found_from_today_witness :
  exists w1 items,
    put_item_into_table dev_client "orders" "o1" "175" june_2024 orders_world
    = (Ok (Some put_item_output), w1)
    /\ tables w1 !! get_complete_name dev_client "orders"
       = Some (with_items orders_table
                 (<[("o1", isoformat june_2024) := "175"]> (table_items orders_table)))
    /\ get_items_greater_than_date dev_client "orders" "o1" "20240603" w1
       = (Ok (Some items), w1)
    /\ (fits_one_page
          (select (with_items orders_table
                     (<[("o1", isoformat june_2024) := "175"]> (table_items orders_table)))
             (CondAnd (KeyEq "key" "o1")
                (KeyGte "datetime" (isoformat (mkdatetime 2024 6 3 0 0 0 0 None))))
             None false) = true ->
        mkItem "o1" (isoformat june_2024) "175" ∈ items).
Proof.
  apply (X18_item_written_today_is_found_from_today dev_client "orders" "o1" "175"
           june_2024 orders_world orders_table).
  - reflexivity.
  - reflexivity.
  - vm_compute. reflexivity.
  - vm_compute. reflexivity.
  - unfold civil. vm_compute. repeat split; discriminate.
Defined.
